(** * Salesforce access layer: a shallow embedding and its properties

    The two tool modules [salesforce_tool.py] and [opp_salesforce_tools.py]
    are one-shot HTTP wrappers: authenticate, send one request, branch on
    the status code, format a string.  The embedding keeps that shape:

    - values decoded from a JSON body are an inductive type [JSON], with
      the Python operations the code applies to them ([.get], [[...]],
      truthiness, [str()], iteration);
    - an exception is a value of [Exn], a computation is a function from
      the trace of requests sent so far to a result and the new trace;
    - the remote endpoints and the process environment are a record
      [World] that every function reads. *)

From Stdlib Require Import ZArith String Ascii List.
From stdpp Require Import base tactics option list gmap strings pretty.

Local Open Scope Z_scope.
Local Open Scope string_scope.
Local Open Scope list_scope.

(** ** Python values and exceptions *)

Set Warnings "-register-all".

(** What [response.json()] can produce.  A float is kept as the text
    [str()] gives for it. *)
Inductive JSON : Type :=
  | JNull
  | JBool (b : bool)
  | JInt (n : Z)
  | JFloat (shown : string)
  | JStr (s : string)
  | JList (items : list JSON)
  | JDict (fields : list (string * JSON)).

Inductive Exn : Type :=
  | TypeError
  | AttributeError
  | KeyError (key : string)
  | JSONDecodeError
  | Exception (message : string)
  | QueryError (status : Z) (body : string).

Inductive result (A : Type) : Type :=
  | Return (a : A)
  | Raise (e : Exn).
Arguments Return {A} a.
Arguments Raise {A} e.

Definition nl : string := String "010"%char "".
Definition dquote : string := String "034"%char "".

(** The value a dict holds at [k]: the first pair with that key. *)
Fixpoint dict_lookup (k : string) (d : list (string * JSON)) : option JSON :=
  match d with
  | [] => None
  | (k', v) :: d' => if String.eqb k k' then Some v else dict_lookup k d'
  end.

(** [v.get(k, dflt)]: only a dict has the method. *)
Definition py_get (v : JSON) (k : string) (dflt : JSON) : result JSON :=
  match v with
  | JDict d => Return (default dflt (dict_lookup k d))
  | _ => Raise AttributeError
  end.

(** [v[k]] with a string key [k]. *)
Definition py_getitem (v : JSON) (k : string) : result JSON :=
  match v with
  | JDict d =>
      match dict_lookup k d with
      | Some x => Return x
      | None => Raise (KeyError k)
      end
  | _ => Raise TypeError
  end.

(** [bool(v)], as [if not v] tests it. *)
Definition py_truthy (v : JSON) : bool :=
  match v with
  | JNull => false
  | JBool b => b
  | JInt n => negb (n =? 0)%Z
  | JFloat r => negb (String.eqb r "0.0" || String.eqb r "-0.0")
  | JStr s => negb (String.eqb s "")
  | JList l => match l with [] => false | _ => true end
  | JDict d => match d with [] => false | _ => true end
  end.

(** [v == s] for a [str] s: only an equal [str] compares equal. *)
Definition py_eq_str (v : JSON) (s : string) : bool :=
  match v with
  | JStr s' => String.eqb s' s
  | _ => false
  end.

(** A byte of the form 10xxxxxx continues a UTF-8 code point. *)
Definition is_continuation (c : ascii) : bool :=
  let n := nat_of_ascii c in (128 <=? n)%nat && (n <? 192)%nat.

(** The characters of a [str], each as a [str] of length one. *)
Fixpoint code_points (s : string) : list string :=
  match s with
  | EmptyString => []
  | String c s' =>
      let starts_inside :=
        match s' with
        | String c' _ => is_continuation c'
        | EmptyString => false
        end in
      match code_points s' with
      | p :: ps =>
          if starts_inside then String c p :: ps
          else String c EmptyString :: p :: ps
      | [] => [String c EmptyString]
      end
  end.

(** The items a [for] loop over [v] visits. *)
Definition py_iter (v : JSON) : result (list JSON) :=
  match v with
  | JList l => Return l
  | JDict d => Return (map (fun kv => JStr kv.1) d)
  | JStr s => Return (map JStr (code_points s))
  | _ => Raise TypeError
  end.

(** [sep.join(l)] *)
Fixpoint join (sep : string) (l : list string) : string :=
  match l with
  | [] => ""
  | [x] => x
  | x :: l' => x +:+ sep +:+ join sep l'
  end.

Section Str.
(** [repr()] of a [str] (quoting and escapes) is the interpreter's. *)
Variable repr_str : string -> string.

Fixpoint py_repr (v : JSON) : string :=
  match v with
  | JNull => "None"
  | JBool b => if b then "True" else "False"
  | JInt n => pretty n
  | JFloat r => r
  | JStr s => repr_str s
  | JList l => "[" +:+ join ", " (map py_repr l) +:+ "]"
  | JDict d =>
      "{" +:+ join ", "
        (map (fun kv => match kv with
                        | (k, x) => repr_str k +:+ ": " +:+ py_repr x
                        end) d) +:+ "}"
  end.

(** [str(v)], what an f-string substitutes for [{v}]. *)
Definition py_str (v : JSON) : string :=
  match v with
  | JStr s => s
  | _ => py_repr v
  end.
End Str.

(** ** Exceptions and loops *)

Definition rbind {A B : Type} (r : result A) (k : A -> result B) : result B :=
  match r with
  | Return a => k a
  | Raise e => Raise e
  end.

Notation "x <~ r ;; k" := (rbind r (fun x => k))
  (at level 100, r at next level, right associativity).

(** [for index, item in enumerate(items, start=index): st = body ...];
    an exception in the body leaves the loop. *)
Fixpoint for_enumerate {S : Type} (index : Z) (items : list JSON)
    (body : Z -> JSON -> S -> result S) (st : S) : result S :=
  match items with
  | [] => Return st
  | item :: rest =>
      st' <~ body index item st ;;
      for_enumerate (index + 1) rest body st'
  end.

(** [for item in items: st = body ...] *)
Fixpoint for_each {S : Type} (items : list JSON)
    (body : JSON -> S -> result S) (st : S) : result S :=
  match items with
  | [] => Return st
  | item :: rest => st' <~ body item st ;; for_each rest body st'
  end.

(** ** The network and the process environment *)

Inductive Method : Type := GET | POST | PATCH | DELETE.

(** The arguments of one [requests.<method>(url, headers=, params=, data=,
    json=)] call. *)
Record Request : Type := mkRequest {
  method : Method;
  url : string;
  headers : list (string * string);
  params : list (string * string);
  data : list (string * option string);
  json_payload : option JSON
}.

(** [body_json] is what [response.json()] decodes from the body, [None]
    when the body is not JSON. *)
Record Response : Type := mkResponse {
  status_code : Z;
  text : string;
  body_json : option JSON
}.

(** Everything outside the process: [os.getenv], the servers (the answer
    to a request may depend on the requests sent before it), and the
    interpreter's [repr] of a [str]. *)
Record World : Type := mkWorld {
  getenv : string -> option string;
  send : list Request -> Request -> Response;
  repr_str : string -> string
}.

(** A computation maps the requests sent so far to a result and the
    requests sent after it. *)
Definition IO (A : Type) : Type := list Request -> result A * list Request.

Definition ret {A : Type} (a : A) : IO A := fun tr => (Return a, tr).
Definition raise {A : Type} (e : Exn) : IO A := fun tr => (Raise e, tr).
Definition lift {A : Type} (r : result A) : IO A := fun tr => (r, tr).
Definition bind {A B : Type} (m : IO A) (k : A -> IO B) : IO B :=
  fun tr =>
    match m tr with
    | (Return a, tr') => k a tr'
    | (Raise e, tr') => (Raise e, tr')
    end.

Notation "x <- m ;; k" := (bind m (fun x => k))
  (at level 100, m at next level, right associativity).

Definition is_patch (r : Request) : bool :=
  match method r with PATCH => true | _ => false end.

Section Requests.
Variable w : World.

Definition request (r : Request) : IO Response :=
  fun tr => (Return (send w tr r), tr ++ [r]).

Definition requests_post (u : string) (h : list (string * string))
    (d : list (string * option string)) (j : option JSON) : IO Response :=
  request (mkRequest POST u h [] d j).

Definition requests_get (u : string) (h : list (string * string))
    (q : list (string * string)) : IO Response :=
  request (mkRequest GET u h q [] None).

Definition requests_patch (u : string) (h : list (string * string))
    (j : JSON) : IO Response :=
  request (mkRequest PATCH u h [] [] (Some j)).

Definition requests_delete (u : string) (h : list (string * string))
    : IO Response :=
  request (mkRequest DELETE u h [] [] None).

(** [response.json()] *)
Definition response_json (r : Response) : result JSON :=
  match body_json r with
  | Some v => Return v
  | None => Raise JSONDecodeError
  end.

(** [a + b] where both come from [os.getenv]: [None] is no operand. *)
Definition env_concat (a b : option string) : result string :=
  match a, b with
  | Some x, Some y => Return (x +:+ y)
  | _, _ => Raise TypeError
  end.

(** The [headers] dict every data request carries. *)
Definition bearer_headers (access_token : JSON) : list (string * string) :=
  [("Authorization", "Bearer " +:+ py_str (repr_str w) access_token);
   ("Content-Type", "application/json")].
End Requests.

(** ** tools/salesforce_tool.py

    The [@tool] decorator is taken to leave a function callable as it is
    written. *)
Module salesforce_tool.
Section Tools.
Variable w : World.

Definition get_access_token : IO (JSON * JSON) :=
  let auth_url := "https://login.salesforce.com/services/oauth2/token" in
  password <- lift (env_concat (getenv w "SF_PASSWORD")
                               (getenv w "SF_SECURITY_TOKEN")) ;;
  let data :=
    [("grant_type", Some "password");
     ("client_id", getenv w "SF_CONSUMER_KEY");
     ("client_secret", getenv w "SF_CONSUMER_SECRET");
     ("username", getenv w "SF_USERNAME");
     ("password", Some password)] in
  response <- requests_post w auth_url [] data None ;;
  if (status_code response =? 200)%Z then
    response_data <- lift (response_json response) ;;
    access_token <- lift (py_get response_data "access_token" JNull) ;;
    instance_url <- lift (py_get response_data "instance_url" JNull) ;;
    ret (access_token, instance_url)
  else
    raise (Exception ("Error fetching access token: "
                      +:+ pretty (status_code response) +:+ ", "
                      +:+ text response)).

(** The address of the query endpoint. *)
Definition query_url (instance_url : JSON) : string :=
  let api_version := "v57.0" in
  py_str (repr_str w) instance_url +:+ "/services/data/" +:+ api_version
    +:+ "/query".

Definition comment_lines (comment : JSON) (formatted_comments : string)
    : result string :=
  body <~ py_getitem comment "CommentBody" ;;
  created <~ py_getitem comment "CreatedDate" ;;
  Return (formatted_comments
          +:+ "*📝 Comment:* " +:+ py_str (repr_str w) body +:+ nl
          +:+ "*📅 Created On:* " +:+ py_str (repr_str w) created
          +:+ nl +:+ nl).

Definition fetch_case_comments (case_number : string) : IO string :=
  tok <- get_access_token ;;
  let (access_token, instance_url) := tok in
  let query :=
    "SELECT Id, CommentBody, CreatedDate FROM CaseComment WHERE ParentId IN (SELECT Id FROM Case WHERE CaseNumber = '"
    +:+ case_number +:+ "')" in
  let headers := bearer_headers w access_token in
  response <- requests_get w (query_url instance_url) headers
                [("q", query)] ;;
  if (status_code response =? 200)%Z then
    body <- lift (response_json response) ;;
    case_comments <- lift (py_get body "records" (JList [])) ;;
    if negb (py_truthy case_comments) then
      ret "*❌ No comments found for this case number.*"
    else
      comments <- lift (py_iter case_comments) ;;
      formatted_comments <- lift (for_each comments comment_lines "") ;;
      ret ("*✅ Case Comments Retrieved Successfully!*" +:+ nl +:+ nl
           +:+ "*🎫 Case Number:* `" +:+ case_number +:+ "`" +:+ nl +:+ nl
           +:+ "*🔎 Full Comments:* " +:+ nl +:+ formatted_comments)
  else
    ret ("*❌ Error fetching case comments: "
         +:+ pretty (status_code response) +:+ ", " +:+ text response
         +:+ "*").

(** The [case_data] dict. *)
Definition case_data (case_subject case_description case_priority : string)
    : JSON :=
  JDict [("Subject", JStr case_subject);
         ("Description", JStr case_description);
         ("Priority", JStr case_priority);
         ("Status", JStr "New");
         ("Origin", JStr "Web")].

Definition create_case_in_salesforce
    (case_subject case_description case_priority : string) : IO string :=
  tok <- get_access_token ;;
  let (access_token, instance_url) := tok in
  let headers := bearer_headers w access_token in
  let api_version := "v57.0" in
  response <- requests_post w
                (py_str (repr_str w) instance_url +:+ "/services/data/"
                 +:+ api_version +:+ "/sobjects/Case/")
                headers []
                (Some (case_data case_subject case_description
                                 case_priority)) ;;
  if (status_code response =? 201)%Z then
    created_case <- lift (response_json response) ;;
    case_id <- lift (py_get created_case "id" JNull) ;;
    ret ("*✅ Case Created Successfully!*" +:+ nl +:+ nl
         +:+ "*🎫 Case ID:* `" +:+ py_str (repr_str w) case_id +:+ "`"
         +:+ nl +:+ nl
         +:+ "*🔎 Case Details:*" +:+ nl
         +:+ "Subject: " +:+ case_subject +:+ nl
         +:+ "Description: " +:+ case_description +:+ nl
         +:+ "Priority: " +:+ case_priority)
  else
    ret ("*❌ Error creating case: " +:+ pretty (status_code response)
         +:+ ", " +:+ text response +:+ "*").

Definition delete_case_in_salesforce (case_id : string) : IO string :=
  tok <- get_access_token ;;
  let (access_token, instance_url) := tok in
  let headers := bearer_headers w access_token in
  let api_version := "v57.0" in
  response <- requests_delete w
                (py_str (repr_str w) instance_url +:+ "/services/data/"
                 +:+ api_version +:+ "/sobjects/Case/" +:+ case_id)
                headers ;;
  if (status_code response =? 204)%Z then
    ret ("*✅ Case with ID `" +:+ case_id +:+ "` was deleted successfully!*")
  else
    ret ("*❌ Error deleting the case with ID `" +:+ case_id +:+ "`: "
         +:+ pretty (status_code response) +:+ ", " +:+ text response
         +:+ "*").

(** [execute_soql_query] up to the response: authenticate, then GET the
    query endpoint with the SOQL text as the parameter [q]. *)
Definition soql_response (soql_query : string) : IO Response :=
  tok <- get_access_token ;;
  let (access_token, instance_url) := tok in
  let headers := bearer_headers w access_token in
  requests_get w (query_url instance_url) headers [("q", soql_query)].

(** Modelled from the spec: what [execute_soql_query] does once
    [records] is bound in the 200 branch, and its whole non-200 branch.
    The file stops at [records = response.json().get('records', [])];
    the Query Executor contract supplies the rest: the records are the
    result, and a non-200 status fails with [QueryError{status, body}]. *)
Definition execute_soql_query (soql_query : string) : IO JSON :=
  response <- soql_response soql_query ;;
  if (status_code response =? 200)%Z then
    body <- lift (response_json response) ;;
    records <- lift (py_get body "records" (JList [])) ;;
    ret records
  else
    raise (QueryError (status_code response) (text response)).
End Tools.
End salesforce_tool.

(** ** tools/opp_salesforce_tools.py *)
Module opp_salesforce_tools.
Section Tools.
Variable w : World.

Definition get_access_token : IO (JSON * JSON) :=
  let auth_url := "https://login.salesforce.com/services/oauth2/token" in
  password <- lift (env_concat (getenv w "SF_PASSWORD")
                               (getenv w "SF_SECURITY_TOKEN")) ;;
  let data :=
    [("grant_type", Some "password");
     ("client_id", getenv w "SF_CONSUMER_KEY");
     ("client_secret", getenv w "SF_CONSUMER_SECRET");
     ("username", getenv w "SF_USERNAME");
     ("password", Some password)] in
  response <- requests_post w auth_url [] data None ;;
  if (status_code response =? 200)%Z then
    response_data <- lift (response_json response) ;;
    access_token <- lift (py_get response_data "access_token" JNull) ;;
    instance_url <- lift (py_get response_data "instance_url" JNull) ;;
    ret (access_token, instance_url)
  else
    raise (Exception ("Error fetching access token: "
                      +:+ pretty (status_code response) +:+ ", "
                      +:+ text response)).

Definition generate_lifecycle_transition_prompt
    (opportunity_name current_stage : JSON) (new_stage : string) : string :=
  nl +:+ "    You are a Salesforce assistant. I have an opportunity called '"
  +:+ py_str (repr_str w) opportunity_name
  +:+ "' which is currently in the '"
  +:+ py_str (repr_str w) current_stage +:+ "' stage." +:+ nl
  +:+ "    The sales team wants to update it to the '" +:+ new_stage
  +:+ "' stage. Please confirm if all necessary conditions are met for this transition."
  +:+ nl
  +:+ "    If so, proceed with the update. If there are any blockers or reasons why this transition can't happen, provide suggestions to resolve them."
  +:+ nl +:+ "    ".

Definition query_url (instance_url : JSON) : string :=
  let api_version := "v57.0" in
  py_str (repr_str w) instance_url +:+ "/services/data/" +:+ api_version
    +:+ "/query".

(** The address of one record of type [sobject]. *)
Definition sobject_url (instance_url : JSON) (sobject : string)
    (id : string) : string :=
  let api_version := "v57.0" in
  py_str (repr_str w) instance_url +:+ "/services/data/" +:+ api_version
    +:+ "/sobjects/" +:+ sobject +:+ "/" +:+ id.

(** The text one opportunity adds to the display. *)
Definition opportunity_text (index : Z) (record : JSON) : result string :=
  name <~ py_getitem record "Name" ;;
  close_date <~ py_getitem record "CloseDate" ;;
  amount <~ py_getitem record "Amount" ;;
  stage <~ py_getitem record "StageName" ;;
  Return ("*Option " +:+ pretty index +:+ " - Opportunity Name:* "
          +:+ py_str (repr_str w) name +:+ nl
          +:+ "*📅 Close Date:* " +:+ py_str (repr_str w) close_date +:+ nl
          +:+ "*💰 Amount:* " +:+ py_str (repr_str w) amount +:+ nl
          +:+ "*📊 Stage:* " +:+ py_str (repr_str w) stage +:+ nl +:+ nl).

(** The body of the loop of [fetch_opportunities]. *)
Definition opportunity_step (index : Z) (record : JSON)
    (st : string * gmap Z JSON) : result (string * gmap Z JSON) :=
  let (formatted_opportunities, opportunity_options) := st in
  block <~ opportunity_text index record ;;
  id <~ py_getitem record "Id" ;;
  Return (formatted_opportunities +:+ block,
          <[index := id]> opportunity_options).

Definition fetch_opportunities : IO (string * gmap Z JSON) :=
  let soql_query :=
    "SELECT Id, Name, StageName, CloseDate, Amount FROM Opportunity" in
  tok <- get_access_token ;;
  let (access_token, instance_url) := tok in
  let headers := bearer_headers w access_token in
  response <- requests_get w (query_url instance_url) headers
                [("q", soql_query)] ;;
  if (status_code response =? 200)%Z then
    body <- lift (response_json response) ;;
    records <- lift (py_get body "records" (JList [])) ;;
    if negb (py_truthy records) then
      ret ("*❌ No opportunities found.*", ∅)
    else
      items <- lift (py_iter records) ;;
      lift (for_enumerate 1 items opportunity_step
              ("*✅ Opportunities Retrieved Successfully!*" +:+ nl +:+ nl,
               ∅))
  else
    ret ("*❌ Error fetching opportunities: "
         +:+ pretty (status_code response) +:+ ", " +:+ text response
         +:+ "*", ∅).

Definition fetch_opportunity_details (opportunity_id : JSON) : IO JSON :=
  tok <- get_access_token ;;
  let (access_token, instance_url) := tok in
  let headers := bearer_headers w access_token in
  let opportunity_url :=
    sobject_url instance_url "Opportunity"
                (py_str (repr_str w) opportunity_id) in
  response <- requests_get w opportunity_url headers [] ;;
  if (status_code response =? 200)%Z then
    lift (response_json response)
  else
    raise (Exception ("Error fetching opportunity details: "
                      +:+ pretty (status_code response) +:+ ", "
                      +:+ text response)).

Definition update_opportunity_stage (opportunity_id : JSON)
    (new_stage : string) : IO string :=
  tok <- get_access_token ;;
  let (access_token, instance_url) := tok in
  let headers := bearer_headers w access_token in
  let update_url :=
    sobject_url instance_url "Opportunity"
                (py_str (repr_str w) opportunity_id) in
  let data := JDict [("StageName", JStr new_stage)] in
  response <- requests_patch w update_url headers data ;;
  if (status_code response =? 204)%Z then
    ret ("🎉 Opportunity stage successfully updated to " +:+ new_stage
         +:+ "!")
  else
    ret ("❌ Failed to update stage: " +:+ pretty (status_code response)
         +:+ ", " +:+ text response).

Definition invalid_option_message : string :=
  "*❌ Invalid option selected. Please choose a valid option.*".

Definition already_set_message (name : JSON) (new_stage : string)
    : string :=
  "⚠️ The stage of the opportunity " +:+ dquote
  +:+ py_str (repr_str w) name +:+ dquote +:+ " is already set to *"
  +:+ new_stage +:+ "*. There's no need to update!".

Definition enhanced_response (opportunity_choice : Z)
    (amount close_date : JSON) (new_stage lifecycle_prompt
     update_message : string) : string :=
  nl +:+ "    🚀 **Opportunity Lifecycle Transition**:" +:+ nl +:+ nl
  +:+ "    🔍 **Selected Opportunity**: Option "
  +:+ pretty opportunity_choice +:+ nl
  +:+ "    💵 **Opportunity Amount**: " +:+ py_str (repr_str w) amount
  +:+ nl
  +:+ "    📅 **Close Date**: " +:+ py_str (repr_str w) close_date
  +:+ nl +:+ nl
  +:+ "    🎯 **New Stage**: " +:+ new_stage +:+ nl +:+ nl
  +:+ "    💬 **Lifecycle Transition Prompt**:" +:+ nl
  +:+ "    " +:+ lifecycle_prompt +:+ nl +:+ nl
  +:+ "    ✅ **Action**: " +:+ update_message +:+ nl +:+ "    ".

Definition validate_and_update_lifecycle_transition
    (opportunity_choice : Z) (new_stage : string) : IO string :=
  fetched <- fetch_opportunities ;;
  let (formatted_opportunities, opportunity_options) := fetched in
  if (size opportunity_options =? 0)%nat then
    ret formatted_opportunities
  else
    match opportunity_options !! opportunity_choice with
    | None => ret invalid_option_message
    | Some opportunity_id =>
        opportunity_details <- fetch_opportunity_details opportunity_id ;;
        current_stage <- lift (py_get opportunity_details "StageName"
                                      (JStr "Not Available")) ;;
        if py_eq_str current_stage new_stage then
          name <- lift (py_getitem opportunity_details "Name") ;;
          ret (already_set_message name new_stage)
        else
          name <- lift (py_getitem opportunity_details "Name") ;;
          let lifecycle_prompt :=
            generate_lifecycle_transition_prompt name current_stage
                                                 new_stage in
          update_message <- update_opportunity_stage opportunity_id
                                                     new_stage ;;
          amount <- lift (py_get opportunity_details "Amount"
                                 (JStr "Not Available")) ;;
          close_date <- lift (py_get opportunity_details "CloseDate"
                                     (JStr "Not Available")) ;;
          ret (enhanced_response opportunity_choice amount close_date
                                 new_stage lifecycle_prompt update_message)
    end.

(** The text one lead adds to the display. *)
Definition lead_text (index : Z) (record : JSON) : result string :=
  first_name <~ py_get record "FirstName" (JStr "") ;;
  last_name <~ py_get record "LastName" (JStr "") ;;
  company <~ py_get record "Company" (JStr "") ;;
  email <~ py_get record "Email" (JStr "") ;;
  lead_source <~ py_get record "LeadSource" (JStr "") ;;
  Return ("*Option " +:+ pretty index +:+ " - Lead Name:* "
          +:+ py_str (repr_str w) first_name +:+ " "
          +:+ py_str (repr_str w) last_name +:+ nl
          +:+ "*🏢 Company:* " +:+ py_str (repr_str w) company +:+ nl
          +:+ "*📧 Email:* " +:+ py_str (repr_str w) email +:+ nl
          +:+ "*🔗 Lead Source:* " +:+ py_str (repr_str w) lead_source
          +:+ nl +:+ nl).

(** The body of the loop of [fetch_leads]. *)
Definition lead_step (index : Z) (record : JSON)
    (st : string * gmap Z JSON) : result (string * gmap Z JSON) :=
  let (formatted_leads, lead_options) := st in
  block <~ lead_text index record ;;
  id <~ py_getitem record "Id" ;;
  Return (formatted_leads +:+ block, <[index := id]> lead_options).

Definition fetch_leads : IO (string * gmap Z JSON) :=
  let soql_query :=
    "SELECT Id, FirstName, LastName, Company, Email, LeadSource FROM Lead" in
  tok <- get_access_token ;;
  let (access_token, instance_url) := tok in
  let headers := bearer_headers w access_token in
  response <- requests_get w (query_url instance_url) headers
                [("q", soql_query)] ;;
  if (status_code response =? 200)%Z then
    body <- lift (response_json response) ;;
    records <- lift (py_get body "records" (JList [])) ;;
    if negb (py_truthy records) then
      ret ("*❌ No leads found.*", ∅)
    else
      items <- lift (py_iter records) ;;
      lift (for_enumerate 1 items lead_step
              ("*✅ Leads Retrieved Successfully!*" +:+ nl +:+ nl, ∅))
  else
    ret ("*❌ Error fetching leads: " +:+ pretty (status_code response)
         +:+ ", " +:+ text response +:+ "*", ∅).

Definition get_lead_details (lead_id : string) : IO string :=
  tok <- get_access_token ;;
  let (access_token, instance_url) := tok in
  let headers := bearer_headers w access_token in
  let lead_url := sobject_url instance_url "Lead" lead_id in
  response <- requests_get w lead_url headers [] ;;
  if (status_code response =? 200)%Z then
    lead_details <- lift (response_json response) ;;
    first_name <- lift (py_get lead_details "FirstName" (JStr "")) ;;
    last_name <- lift (py_get lead_details "LastName" (JStr "")) ;;
    company <- lift (py_get lead_details "Company" (JStr "")) ;;
    email <- lift (py_get lead_details "Email" (JStr "")) ;;
    phone <- lift (py_get lead_details "Phone" (JStr "")) ;;
    lead_source <- lift (py_get lead_details "LeadSource" (JStr "")) ;;
    status <- lift (py_get lead_details "Status" (JStr "")) ;;
    ret (nl +:+ "        📊 **Lead Details**:" +:+ nl
         +:+ "        " +:+ nl
         +:+ "        👤 **Name**: " +:+ py_str (repr_str w) first_name
         +:+ " " +:+ py_str (repr_str w) last_name +:+ nl
         +:+ "        🏢 **Company**: " +:+ py_str (repr_str w) company
         +:+ nl
         +:+ "        📧 **Email**: " +:+ py_str (repr_str w) email +:+ nl
         +:+ "        📱 **Phone**: " +:+ py_str (repr_str w) phone +:+ nl
         +:+ "        🔗 **Lead Source**: "
         +:+ py_str (repr_str w) lead_source +:+ nl
         +:+ "        🏆 **Status**: " +:+ py_str (repr_str w) status +:+ nl
         +:+ "        ")
  else
    ret ("*❌ Error fetching lead details: "
         +:+ pretty (status_code response) +:+ ", " +:+ text response
         +:+ "*").

Definition get_lead_email_info (lead_id : string) : IO JSON :=
  tok <- get_access_token ;;
  let (access_token, instance_url) := tok in
  let headers := bearer_headers w access_token in
  let lead_url := sobject_url instance_url "Lead" lead_id in
  response <- requests_get w lead_url headers [] ;;
  if (status_code response =? 200)%Z then
    lead_details <- lift (response_json response) ;;
    first_name <- lift (py_get lead_details "FirstName" (JStr "")) ;;
    last_name <- lift (py_get lead_details "LastName" (JStr "")) ;;
    company <- lift (py_get lead_details "Company" (JStr "")) ;;
    lead_source <- lift (py_get lead_details "LeadSource" (JStr "")) ;;
    email <- lift (py_get lead_details "Email" (JStr "")) ;;
    ret (JDict [("first_name", first_name);
                ("last_name", last_name);
                ("company", company);
                ("lead_source", lead_source);
                ("email", email)])
  else
    raise (Exception ("Error fetching lead details: "
                      +:+ pretty (status_code response) +:+ ", "
                      +:+ text response)).
End Tools.
End opp_salesforce_tools.

(** ** A scripted server

    One fixed answer per kind of request: the token endpoint, a query
    ([GET] with parameters), a record read ([GET] without), and a write
    ([POST] to another address, [PATCH], [DELETE]). *)
Definition token_endpoint : string :=
  "https://login.salesforce.com/services/oauth2/token".

Definition scripted (token query record write : Response) : World := {|
  getenv := fun _ => Some "secret";
  send := fun _ r =>
    match method r with
    | POST => if String.eqb (url r) token_endpoint then token else write
    | GET => match params r with [] => record | _ => query end
    | _ => write
    end;
  repr_str := fun s => "'" +:+ s +:+ "'"
|}.

Definition ok (status : Z) (v : JSON) : Response :=
  mkResponse status "<json>" (Some v).

Definition token_ok : Response :=
  ok 200 (JDict [("access_token", JStr "TOKEN");
                 ("instance_url", JStr "https://acme.example")]).

Definition acme_deal : JSON :=
  JDict [("Id", JStr "006A"); ("Name", JStr "Acme Deal");
         ("StageName", JStr "Prospecting"); ("CloseDate", JStr "2024-01-01");
         ("Amount", JInt 1000)].

Definition beta_deal : JSON :=
  JDict [("Id", JStr "006B"); ("Name", JStr "Beta Deal");
         ("StageName", JStr "Closed Won"); ("CloseDate", JStr "2024-02-01");
         ("Amount", JInt 2000)].

Definition no_content : Response := mkResponse 204 "" None.
Definition not_found : Response := mkResponse 404 "NOT_FOUND" None.

(** Two opportunities on the server; a record read answers [record]. *)
Definition two_deals (record : JSON) : World :=
  scripted token_ok (ok 200 (JDict [("records", JList [acme_deal; beta_deal])]))
           (ok 200 record) no_content.

(** ** The requests the tools send, and what a caller observes *)

(** The token request: the OAuth2 password grant. *)
Definition token_request (w : World) (password : string) : Request :=
  mkRequest POST token_endpoint [] []
    [("grant_type", Some "password");
     ("client_id", getenv w "SF_CONSUMER_KEY");
     ("client_secret", getenv w "SF_CONSUMER_SECRET");
     ("username", getenv w "SF_USERNAME");
     ("password", Some password)] None.

(** The query request for a SOQL text. *)
Definition query_request (w : World) (access_token instance_url : JSON)
    (soql : string) : Request :=
  mkRequest GET (salesforce_tool.query_url w instance_url)
    (bearer_headers w access_token) [("q", soql)] [] None.

(** The read of one record by id. *)
Definition record_request (w : World) (access_token instance_url : JSON)
    (sobject id : string) : Request :=
  mkRequest GET (opp_salesforce_tools.sobject_url w instance_url sobject id)
    (bearer_headers w access_token) [] [] None.

(** The creation of a case. *)
Definition case_request (w : World) (access_token instance_url : JSON)
    (subject description priority : string) : Request :=
  mkRequest POST
    (py_str (repr_str w) instance_url +:+ "/services/data/" +:+ "v57.0"
     +:+ "/sobjects/Case/")
    (bearer_headers w access_token) [] []
    (Some (salesforce_tool.case_data subject description priority)).

Definition opportunity_soql : string :=
  "SELECT Id, Name, StageName, CloseDate, Amount FROM Opportunity".

Definition lead_soql : string :=
  "SELECT Id, FirstName, LastName, Company, Email, LeadSource FROM Lead".

Definition comment_soql (case_number : string) : string :=
  "SELECT Id, CommentBody, CreatedDate FROM CaseComment WHERE ParentId IN (SELECT Id FROM Case WHERE CaseNumber = '"
  +:+ case_number +:+ "')".

(** [needle in hay] *)
Definition contains (needle hay : string) : Prop :=
  exists before after, hay = before +:+ needle +:+ after.

(** What a tool hands to its caller: a [str], or a tuple of a [str] and
    an option mapping. *)
Inductive Returned : Type :=
  | RStr (s : string)
  | RTuple (s : string) (options : gmap Z JSON).

Definition returned {A : Type} (f : A -> Returned) (r : result A)
    : result Returned :=
  x <~ r ;; Return (f x).

(** The display of a dict field, the empty string when it is absent. *)
Definition shown_or_empty (w : World) (k : string)
    (d : list (string * JSON)) : string :=
  match dict_lookup k d with
  | Some v => py_str (repr_str w) v
  | None => ""
  end.

(** A 200 answer to a query whose [records] are an empty list, or are
    not there at all. *)
Definition no_records (r : Response) : Prop :=
  status_code r = 200
  /\ exists d, body_json r = Some (JDict d)
              /\ default (JList []) (dict_lookup "records" d) = JList [].

(** A server with nothing to list. *)
Definition nothing_listed : World :=
  scripted token_ok (ok 200 (JDict [("records", JList [])]))
           not_found no_content.

(** A record that is a dict holding every key of [keys]. *)
Definition has_keys (keys : list string) (r : JSON) : Prop :=
  exists d, r = JDict d /\ Forall (fun k => is_Some (dict_lookup k d)) keys.

Definition opportunity_record : JSON -> Prop :=
  has_keys ["Id"; "Name"; "StageName"; "CloseDate"; "Amount"].

Definition lead_record : JSON -> Prop := has_keys ["Id"].

Definition concat_strings (l : list string) : string :=
  foldr String.append "" l.

(** [text] and [options] list [items] as options 1..N in the order of
    [items]: the text is the header followed by one block per record,
    the i-th block being that of the i-th record under the label
    [Option i]; the mapping sends i to the [Id] of the i-th record and
    has no other key. *)
Definition numbered (text_of : Z -> JSON -> result string) (header : string)
    (items : list JSON) (text : string) (options : gmap Z JSON) : Prop :=
  exists blocks : list string,
    text = header +:+ concat_strings blocks
    /\ length blocks = length items
    /\ (forall (i : nat) (r : JSON),
          items !! i = Some r ->
          exists b rest id,
            blocks !! i = Some b
            /\ text_of (1 + Z.of_nat i) r = Return b
            /\ b = "*Option " +:+ pretty (1 + Z.of_nat i) +:+ rest
            /\ py_getitem r "Id" = Return id
            /\ options !! (1 + Z.of_nat i) = Some id)
    /\ (forall k : Z,
          k ∈ dom options <-> 1 <= k <= Z.of_nat (length items)).

Definition opportunities_header : string :=
  "*✅ Opportunities Retrieved Successfully!*" +:+ nl +:+ nl.

Definition leads_header : string :=
  "*✅ Leads Retrieved Successfully!*" +:+ nl +:+ nl.

(** A 200 answer to a query whose [records] are the list [items]. *)
Definition lists_records (r : Response) (items : list JSON) : Prop :=
  status_code r = 200
  /\ exists d, body_json r = Some (JDict d)
              /\ dict_lookup "records" d = Some (JList items).

(** The text of one lead whose record is the dict [d]: a field the
    record does not hold shows as the empty string. *)
Definition lead_block (w : World) (index : Z) (d : list (string * JSON))
    : string :=
  "*Option " +:+ pretty index +:+ " - Lead Name:* "
  +:+ shown_or_empty w "FirstName" d +:+ " "
  +:+ shown_or_empty w "LastName" d +:+ nl
  +:+ "*🏢 Company:* " +:+ shown_or_empty w "Company" d +:+ nl
  +:+ "*📧 Email:* " +:+ shown_or_empty w "Email" d +:+ nl
  +:+ "*🔗 Lead Source:* " +:+ shown_or_empty w "LeadSource" d
  +:+ nl +:+ nl.

(** The texts of the leads [ds], numbered from [index]. *)
Fixpoint lead_blocks (w : World) (index : Z)
    (ds : list (list (string * JSON))) : list string :=
  match ds with
  | [] => []
  | d :: ds' => lead_block w index d :: lead_blocks w (index + 1) ds'
  end.

(** The display of the leads [ds]. *)
Definition leads_display (w : World) (ds : list (list (string * JSON)))
    : string :=
  match ds with
  | [] => "*❌ No leads found.*"
  | _ => leads_header +:+ concat_strings (lead_blocks w 1 ds)
  end.

(** Two leads: one with a first name only, one with nothing but its Id. *)
Definition sparse_leads : list (list (string * JSON)) :=
  [[("Id", JStr "00Q1"); ("FirstName", JStr "Ada")];
   [("Id", JStr "00Q2")]].

Definition two_leads : World :=
  scripted token_ok
           (ok 200 (JDict [("records", JList (map JDict sparse_leads))]))
           not_found no_content.

(** A process started without the Salesforce variables. *)
Definition no_credentials : World := {|
  getenv := fun _ => None;
  send := fun _ _ => not_found;
  repr_str := fun s => "'" +:+ s +:+ "'"
|}.

(** A server that turns every login down. *)
Definition login_refused : World :=
  scripted (mkResponse 401 "invalid_grant" None) not_found not_found
           not_found.

(** The stage update of one opportunity. *)
Definition patch_request (w : World) (access_token instance_url : JSON)
    (id new_stage : string) : Request :=
  mkRequest PATCH
    (opp_salesforce_tools.sobject_url w instance_url "Opportunity" id)
    (bearer_headers w access_token) [] []
    (Some (JDict [("StageName", JStr new_stage)])).

(** The deletion of one case. *)
Definition delete_request (w : World) (access_token instance_url : JSON)
    (case_id : string) : Request :=
  mkRequest DELETE
    (py_str (repr_str w) instance_url +:+ "/services/data/" +:+ "v57.0"
     +:+ "/sobjects/Case/" +:+ case_id)
    (bearer_headers w access_token) [] [] None.

(** Whatever its outcome, [m] adds to the trace only requests that
    satisfy [P]. *)
Definition sends_only {A : Type} (P : Request -> Prop) (m : IO A) : Prop :=
  forall tr r tr',
    m tr = (r, tr') -> exists sent, tr' = tr ++ sent /\ Forall P sent.

(** A request that changes nothing on the data servers: a GET, or the
    POST to the token endpoint. *)
Definition reads (r : Request) : Prop :=
  method r = GET \/ (method r = POST /\ url r = token_endpoint).

(** Two opportunities listed, none of them readable by id. *)
Definition deals_unreadable : World :=
  scripted token_ok (ok 200 (JDict [("records", JList [acme_deal; beta_deal])]))
           not_found no_content.

(** The requests of a listing followed by the read of one opportunity. *)
Definition list_then_read (w : World) (id : string) : list Request :=
  [token_request w "secretsecret";
   query_request w (JStr "TOKEN") (JStr "https://acme.example")
                 opportunity_soql;
   token_request w "secretsecret";
   record_request w (JStr "TOKEN") (JStr "https://acme.example")
                  "Opportunity" id].

(** The first key of [keys], in that order, that the dict [d] lacks. *)
Fixpoint first_missing_key (keys : list string) (d : list (string * JSON))
    : option string :=
  match keys with
  | [] => None
  | k :: keys' =>
      match dict_lookup k d with
      | Some _ => first_missing_key keys' d
      | None => Some k
      end
  end.

(** The keys the loop of [fetch_opportunities] reads, in the order it
    reads them. *)
Definition opportunity_keys : list string :=
  ["Name"; "CloseDate"; "Amount"; "StageName"; "Id"].

(** The first missing key of the first record that lacks one. *)
Fixpoint first_failure (ds : list (list (string * JSON))) : option string :=
  match ds with
  | [] => None
  | d :: ds' =>
      match first_missing_key opportunity_keys d with
      | Some k => Some k
      | None => first_failure ds'
      end
  end.

(** Two opportunities, the second without a close date and an amount. *)
Definition deals_incomplete : World :=
  scripted token_ok
           (ok 200 (JDict [("records",
                            JList [acme_deal;
                                   JDict [("Id", JStr "006B");
                                          ("Name", JStr "Beta Deal");
                                          ("StageName", JStr "Closed Won")]])]))
           not_found no_content.

(** The text of one case comment whose record is the dict [d]. *)
Definition comment_block (w : World) (d : list (string * JSON)) : string :=
  "*📝 Comment:* " +:+ shown_or_empty w "CommentBody" d +:+ nl
  +:+ "*📅 Created On:* " +:+ shown_or_empty w "CreatedDate" d
  +:+ nl +:+ nl.

Definition two_comments : list (list (string * JSON)) :=
  [[("Id", JStr "00a1"); ("CommentBody", JStr "Router restarted");
    ("CreatedDate", JStr "2024-03-01")];
   [("Id", JStr "00a2"); ("CommentBody", JStr "Customer confirmed");
    ("CreatedDate", JStr "2024-03-02")]].

Definition case_with_comments : World :=
  scripted token_ok
           (ok 200 (JDict [("records", JList (map JDict two_comments))]))
           not_found no_content.

(** A server whose queries fail. *)
Definition queries_fail : World :=
  scripted token_ok (mkResponse 500 "SERVER_ERROR" None) not_found
           no_content.


(** A server whose queries answer that [records] is the text [oops]. *)
Definition records_are_text : World :=
  scripted token_ok (ok 200 (JDict [("records", JStr "oops")])) not_found
           no_content.

(** A server that creates the case and answers 201 with [body]. *)
Definition case_created (body : option JSON) : World :=
  scripted token_ok not_found not_found (mkResponse 201 "<body>" body).


(** ** Basic facts *)

Lemma string_app_assoc (a b c : string) : (a +:+ b) +:+ c = a +:+ b +:+ c.
Proof.
  induction a as [|ch a IH]; [reflexivity|].
  change (String ch ((a +:+ b) +:+ c) = String ch (a +:+ b +:+ c)).
  now rewrite IH.
Qed.

Lemma string_app_nil_r (a : string) : a +:+ "" = a.
Proof.
  induction a as [|ch a IH]; [reflexivity|].
  change (String ch (a +:+ "") = String ch a). now rewrite IH.
Qed.

Lemma contains_here (a b c : string) : contains b (a +:+ b +:+ c).
Proof. now exists a, c. Qed.

Lemma contains_later (a b c : string) : contains b c -> contains b (a +:+ c).
Proof.
  intros (x & y & ->). exists (a +:+ x), y. now rewrite string_app_assoc.
Qed.

Lemma contains_end (a b : string) : contains b (a +:+ b).
Proof. exists a, "". now rewrite string_app_nil_r. Qed.

Create HintDb contains.
#[local] Hint Resolve contains_here contains_later contains_end : contains.

Lemma same_get_access_token (w : World) :
  opp_salesforce_tools.get_access_token w = salesforce_tool.get_access_token w.
Proof. reflexivity. Qed.

Ltac io_unfold :=
  cbv beta iota zeta delta
    [bind lift ret raise rbind request requests_get requests_post
     requests_patch requests_delete].

(** Authentication sends the token request and nothing else; without the
    two password variables it sends nothing. *)
Lemma get_access_token_sends (w : World) (tr tr' : list Request)
    (r : result (JSON * JSON)) :
  salesforce_tool.get_access_token w tr = (r, tr') ->
  (tr' = tr /\ r = Raise TypeError)
  \/ exists password, tr' = tr ++ [token_request w password].
Proof.
  unfold salesforce_tool.get_access_token. io_unfold.
  destruct (env_concat _ _) as [password|e] eqn:E.
  - intros H. right. exists password.
    repeat match type of H with
           | context [if ?b then _ else _] => destruct b
           | context [match ?x with Return _ => _ | Raise _ => _ end] =>
               destruct x
           end; now inversion H.
  - intros H. left. inversion H; subst.
    unfold env_concat in E.
    destruct (getenv w "SF_PASSWORD"), (getenv w "SF_SECURITY_TOKEN");
      now inversion E.
Qed.

Lemma get_access_token_returns (w : World) (tr tr' : list Request)
    (p : JSON * JSON) :
  salesforce_tool.get_access_token w tr = (Return p, tr') ->
  exists password, tr' = tr ++ [token_request w password].
Proof.
  intros H. destruct (get_access_token_sends _ _ _ _ H) as [[_ ?]|?];
    [discriminate|assumption].
Qed.

Ltac io_cases H :=
  repeat match type of H with
         | context [if ?b then _ else _] => destruct b
         | context [match ?x with Return _ => _ | Raise _ => _ end] =>
             destruct x
         end.

(** A successful [fetch_opportunities] has sent the token request and the
    list query, in that order, and nothing else. *)
Lemma fetch_opportunities_sends (w : World) (tr tr' : list Request)
    (r : string * gmap Z JSON) :
  opp_salesforce_tools.fetch_opportunities w tr = (Return r, tr') ->
  exists password tok url,
    tr' = tr ++ [token_request w password;
                 query_request w tok url opportunity_soql].
Proof.
  unfold opp_salesforce_tools.fetch_opportunities. unfold bind at 1.
  destruct (opp_salesforce_tools.get_access_token w tr)
    as [[[tok url]|e] tr1] eqn:Hauth; [|discriminate].
  destruct (get_access_token_returns _ _ _ _ Hauth) as [password ->].
  io_unfold. intros H. exists password, tok, url.
  rewrite <- app_assoc in H. io_cases H; now inversion H.
Qed.

(** A successful [fetch_opportunity_details] has sent the token request
    and one record read. *)
Lemma fetch_opportunity_details_sends (w : World) (tr tr' : list Request)
    (id r : JSON) :
  opp_salesforce_tools.fetch_opportunity_details w id tr = (Return r, tr') ->
  exists password tok url,
    tr' = tr ++ [token_request w password;
                 record_request w tok url "Opportunity"
                                (py_str (repr_str w) id)].
Proof.
  unfold opp_salesforce_tools.fetch_opportunity_details. unfold bind at 1.
  destruct (opp_salesforce_tools.get_access_token w tr)
    as [[[tok url]|e] tr1] eqn:Hauth; [|discriminate].
  destruct (get_access_token_returns _ _ _ _ Hauth) as [password ->].
  io_unfold. intros H. exists password, tok, url.
  rewrite <- app_assoc in H. io_cases H; now inversion H.
Qed.

Lemma nonempty_options (opts : gmap Z JSON) :
  opts <> ∅ -> (size opts =? 0)%nat = false.
Proof.
  intros H. apply Nat.eqb_neq. intros Hs. now apply map_size_empty_iff in Hs.
Qed.

Lemma key_nonempty (opts : gmap Z JSON) (k : Z) (v : JSON) :
  opts !! k = Some v -> opts <> ∅.
Proof. intros H ->. now rewrite lookup_empty in H. Qed.

(** ** Authentication *)

(** C7. A token response with a status other than 200 makes
    [get_access_token], in either module, raise an exception whose
    message is the fixed prefix followed by the status code in decimal,
    a comma and the response body unchanged; the token request was sent
    once and nothing else was. *)
Theorem token_failure_passthrough (w : World) (tr : list Request)
    (p t : string) :
  getenv w "SF_PASSWORD" = Some p ->
  getenv w "SF_SECURITY_TOKEN" = Some t ->
  status_code (send w tr (token_request w (p +:+ t))) <> 200 ->
  let response := send w tr (token_request w (p +:+ t)) in
  let failure :=
    (Raise (Exception ("Error fetching access token: "
                       +:+ pretty (status_code response) +:+ ", "
                       +:+ text response)),
     tr ++ [token_request w (p +:+ t)]) in
  salesforce_tool.get_access_token w tr = failure
  /\ opp_salesforce_tools.get_access_token w tr = failure.
Proof.
  intros Hp Ht Hs response failure.
  assert (salesforce_tool.get_access_token w tr = failure) as H.
  { unfold salesforce_tool.get_access_token. io_unfold.
    rewrite Hp, Ht. cbn [env_concat].
    subst failure response. unfold token_request, token_endpoint in *.
    apply Z.eqb_neq in Hs. now rewrite Hs. }
  split; [exact H|]. now rewrite same_get_access_token.
Qed.

Lemma token_failure_passthrough_witness :
  salesforce_tool.get_access_token
    (scripted (mkResponse 401 "invalid_grant" None) not_found not_found
              not_found) []
  = (Raise (Exception "Error fetching access token: 401, invalid_grant"),
     [token_request (scripted (mkResponse 401 "invalid_grant" None)
                              not_found not_found not_found)
                    "secretsecret"]).
Proof.
  apply (token_failure_passthrough
           (scripted (mkResponse 401 "invalid_grant" None) not_found
                     not_found not_found) [] "secret" "secret");
    [reflexivity | reflexivity | vm_compute; discriminate].
Defined.

(** ** The lifecycle transition *)

(** C9. When the list query is answered with a status other than 200,
    [fetch_opportunities] returns the formatted error text with an empty
    option mapping, and [validate_and_update_lifecycle_transition]
    returns that same text having sent the token request and the list
    query only: no record read, no PATCH. *)
Theorem query_failure_stops_workflow (w : World) (tr tr1 : list Request)
    (tok url : JSON) :
  opp_salesforce_tools.get_access_token w tr = (Return (tok, url), tr1) ->
  status_code (send w tr1 (query_request w tok url opportunity_soql)) <> 200 ->
  let query := query_request w tok url opportunity_soql in
  let response := send w tr1 query in
  let message :=
    "*❌ Error fetching opportunities: " +:+ pretty (status_code response)
    +:+ ", " +:+ text response +:+ "*" in
  opp_salesforce_tools.fetch_opportunities w tr
    = (Return (message, ∅), tr1 ++ [query])
  /\ (forall (choice : Z) (new_stage : string),
        opp_salesforce_tools.validate_and_update_lifecycle_transition
          w choice new_stage tr
        = (Return message, tr1 ++ [query]))
  /\ exists password, tr1 ++ [query] = tr ++ [token_request w password; query].
Proof.
  intros Hauth Hs query response message.
  assert (opp_salesforce_tools.fetch_opportunities w tr
          = (Return (message, ∅), tr1 ++ [query])) as Hfetch.
  { unfold opp_salesforce_tools.fetch_opportunities. unfold bind at 1.
    rewrite Hauth. io_unfold. apply Z.eqb_neq in Hs.
    subst message response query. unfold query_request in *.
    unfold salesforce_tool.query_url, opp_salesforce_tools.query_url,
      opportunity_soql in *.
    now rewrite Hs. }
  split; [exact Hfetch|]. split.
  - intros choice new_stage.
    unfold opp_salesforce_tools.validate_and_update_lifecycle_transition.
    unfold bind at 1. rewrite Hfetch. reflexivity.
  - destruct (get_access_token_returns _ _ _ _ Hauth) as [password ->].
    exists password. now rewrite <- app_assoc.
Qed.

Lemma query_failure_stops_workflow_witness :
  let w := scripted token_ok (mkResponse 500 "SERVER_ERROR" None)
                    (ok 200 acme_deal) no_content in
  opp_salesforce_tools.validate_and_update_lifecycle_transition
    w 1 "Closed Won" []
  = (Return "*❌ Error fetching opportunities: 500, SERVER_ERROR*",
     [token_request w "secretsecret";
      query_request w (JStr "TOKEN") (JStr "https://acme.example")
                    opportunity_soql]).
Proof.
  intros w.
  apply (query_failure_stops_workflow w [] [token_request w "secretsecret"]
           (JStr "TOKEN") (JStr "https://acme.example"));
    [reflexivity | vm_compute; discriminate].
Defined.

(** C2, as the code has it.  The transition first lists the
    opportunities itself.  For a choice that is no key of the mapping it
    then returns, when the mapping is not empty, the fixed invalid-option
    text, and when the mapping is empty, the text of the listing; either
    way the requests sent are those of the listing, the token request
    and the list query, and no other: no record read and no PATCH. *)
Theorem invalid_choice_stops_after_list (w : World) (tr tr1 : list Request)
    (choice : Z) (new_stage formatted : string) (options : gmap Z JSON) :
  opp_salesforce_tools.fetch_opportunities w tr
    = (Return (formatted, options), tr1) ->
  options !! choice = None ->
  (options <> ∅ ->
   opp_salesforce_tools.validate_and_update_lifecycle_transition
     w choice new_stage tr
   = (Return "*❌ Invalid option selected. Please choose a valid option.*",
      tr1))
  /\ (options = ∅ ->
      opp_salesforce_tools.validate_and_update_lifecycle_transition
        w choice new_stage tr
      = (Return formatted, tr1))
  /\ exists password tok url,
       tr1 = tr ++ [token_request w password;
                    query_request w tok url opportunity_soql].
Proof.
  intros Hfetch Hnone. split; [|split].
  - intros Hne.
    unfold opp_salesforce_tools.validate_and_update_lifecycle_transition.
    unfold bind at 1. rewrite Hfetch.
    rewrite (nonempty_options _ Hne), Hnone. reflexivity.
  - intros ->.
    unfold opp_salesforce_tools.validate_and_update_lifecycle_transition.
    unfold bind at 1. rewrite Hfetch. reflexivity.
  - exact (fetch_opportunities_sends _ _ _ _ Hfetch).
Qed.

(** C1, as the code has it.  When the chosen option resolves to a record
    whose [StageName] is the requested stage, the requests the
    transition has sent are the listing and the read of that record, and
    none of them is a PATCH: [update_opportunity_stage] is not called.
    When the record holds a [Name], the text returned says that the stage
    of the opportunity of that name is already set to the requested
    stage and that there is no need to update. *)
Theorem same_stage_no_update (w : World) (tr tr1 tr2 : list Request)
    (choice : Z) (new_stage formatted : string) (options : gmap Z JSON)
    (id : JSON) (details : list (string * JSON)) :
  opp_salesforce_tools.fetch_opportunities w tr
    = (Return (formatted, options), tr1) ->
  options !! choice = Some id ->
  opp_salesforce_tools.fetch_opportunity_details w id tr1
    = (Return (JDict details), tr2) ->
  dict_lookup "StageName" details = Some (JStr new_stage) ->
  snd (opp_salesforce_tools.validate_and_update_lifecycle_transition
         w choice new_stage tr) = tr2
  /\ (exists sent, tr2 = tr ++ sent
                   /\ Forall (fun r => is_patch r = false) sent)
  /\ (forall name : JSON,
        dict_lookup "Name" details = Some name ->
        fst (opp_salesforce_tools.validate_and_update_lifecycle_transition
               w choice new_stage tr)
        = Return ("⚠️ The stage of the opportunity "
                  +:+ String "034"%char ""
                  +:+ py_str (repr_str w) name
                  +:+ String "034"%char ""
                  +:+ " is already set to *" +:+ new_stage
                  +:+ "*. There's no need to update!")).
Proof.
  intros Hfetch Hid Hdetails Hstage.
  assert (opp_salesforce_tools.validate_and_update_lifecycle_transition
            w choice new_stage tr
          = (match dict_lookup "Name" details with
             | Some name =>
                 Return (opp_salesforce_tools.already_set_message w name
                           new_stage)
             | None => Raise (KeyError "Name")
             end, tr2)) as Hrun.
  { unfold opp_salesforce_tools.validate_and_update_lifecycle_transition.
    unfold bind at 1. rewrite Hfetch.
    rewrite (nonempty_options _ (key_nonempty _ _ _ Hid)), Hid.
    unfold bind at 1. rewrite Hdetails.
    io_unfold. cbn [py_get py_getitem]. rewrite Hstage.
    cbn [default from_option py_eq_str Datatypes.id].
    rewrite String.eqb_refl. now destruct (dict_lookup "Name" details). }
  rewrite Hrun. split; [reflexivity|]. split.
  - destruct (fetch_opportunities_sends _ _ _ _ Hfetch)
      as (p1 & tok1 & url1 & ->).
    destruct (fetch_opportunity_details_sends _ _ _ _ _ Hdetails)
      as (p2 & tok2 & url2 & ->).
    eexists. rewrite <- app_assoc. split; [reflexivity|].
    repeat constructor.
  - intros name Hname. now rewrite Hname.
Qed.

Lemma invalid_choice_stops_after_list_witness :
  let w := two_deals acme_deal in
  opp_salesforce_tools.validate_and_update_lifecycle_transition
    w 5 "Closed Won" []
  = (Return "*❌ Invalid option selected. Please choose a valid option.*",
     [token_request w "secretsecret";
      query_request w (JStr "TOKEN") (JStr "https://acme.example")
                    opportunity_soql]).
Proof.
  intros w.
  refine (proj1 (invalid_choice_stops_after_list w []
                   [token_request w "secretsecret";
                    query_request w (JStr "TOKEN")
                                  (JStr "https://acme.example")
                                  opportunity_soql]
                   5 "Closed Won" _
                   (<[2 := JStr "006B"]> (<[1 := JStr "006A"]> ∅)) _ _) _).
  - vm_compute. reflexivity.
  - vm_compute. reflexivity.
  - intros H. apply (f_equal (fun m => m !! 1)) in H. vm_compute in H.
    discriminate.
Defined.

(** C2 as stated fails twice over.  With two opportunities listed, the
    choice 5 is no key of the mapping, and the transition has by then
    sent two requests; with none listed, the choice 1 is no key of the
    (empty) mapping, and the text returned is the no-opportunities one,
    not the invalid-option one. *)
Lemma invalid_choice_counterexample :
  let w := two_deals acme_deal in
  let w0 := scripted token_ok (ok 200 (JDict [("records", JList [])]))
                     (ok 200 acme_deal) no_content in
  (exists formatted options,
      fst (opp_salesforce_tools.fetch_opportunities w [])
        = Return (formatted, options)
      /\ options !! 5 = None)
  /\ snd (opp_salesforce_tools.validate_and_update_lifecycle_transition
            w 5 "Closed Won" []) <> []
  /\ (exists formatted options,
         fst (opp_salesforce_tools.fetch_opportunities w0 [])
           = Return (formatted, options)
         /\ options !! 1 = None)
  /\ fst (opp_salesforce_tools.validate_and_update_lifecycle_transition
            w0 1 "Closed Won" [])
     <> Return opp_salesforce_tools.invalid_option_message.
Proof.
  intros w w0. repeat split.
  - eexists _, _. split; [vm_compute; reflexivity|]. vm_compute. reflexivity.
  - vm_compute. discriminate.
  - eexists _, _. split; [vm_compute; reflexivity|]. vm_compute. reflexivity.
  - vm_compute. discriminate.
Qed.

Lemma same_stage_no_update_witness :
  let w := two_deals beta_deal in
  fst (opp_salesforce_tools.validate_and_update_lifecycle_transition
         w 2 "Closed Won" [])
  = Return ("⚠️ The stage of the opportunity " +:+ String "034"%char ""
            +:+ "Beta Deal" +:+ String "034"%char ""
            +:+ " is already set to *Closed Won*. There's no need to update!").
Proof.
  intros w.
  refine (proj2 (proj2 (same_stage_no_update w []
                          [token_request w "secretsecret";
                           query_request w (JStr "TOKEN")
                                         (JStr "https://acme.example")
                                         opportunity_soql]
                          [token_request w "secretsecret";
                           query_request w (JStr "TOKEN")
                                         (JStr "https://acme.example")
                                         opportunity_soql;
                           token_request w "secretsecret";
                           record_request w (JStr "TOKEN")
                                          (JStr "https://acme.example")
                                          "Opportunity" "006B"]
                          2 "Closed Won" _
                          (<[2 := JStr "006B"]> (<[1 := JStr "006A"]> ∅))
                          (JStr "006B")
                          [("Id", JStr "006B"); ("Name", JStr "Beta Deal");
                           ("StageName", JStr "Closed Won");
                           ("CloseDate", JStr "2024-02-01");
                           ("Amount", JInt 2000)] _ _ _ _))
                (JStr "Beta Deal") _);
    vm_compute; reflexivity.
Defined.

(** C1 as stated fails for a record without a [Name]: option 1 resolves
    to a record whose stage is the requested one, and the transition
    returns no text at all, it raises [KeyError]. *)
Lemma same_stage_counterexample :
  let w := two_deals (JDict [("StageName", JStr "Closed Won")]) in
  (exists formatted options,
      fst (opp_salesforce_tools.fetch_opportunities w [])
        = Return (formatted, options)
      /\ options !! 1 = Some (JStr "006A"))
  /\ fst (opp_salesforce_tools.fetch_opportunity_details w (JStr "006A") [])
     = Return (JDict [("StageName", JStr "Closed Won")])
  /\ fst (opp_salesforce_tools.validate_and_update_lifecycle_transition
            w 1 "Closed Won" [])
     = Raise (KeyError "Name")
  /\ forall message : string,
       fst (opp_salesforce_tools.validate_and_update_lifecycle_transition
              w 1 "Closed Won" [])
       <> Return message.
Proof.
  intros w. split; [|split; [|split]].
  - eexists _, _. split; vm_compute; reflexivity.
  - vm_compute. reflexivity.
  - vm_compute. reflexivity.
  - intros message. vm_compute. discriminate.
Qed.

(** ** Reading one record *)

(** C4, as the code has it.  On a status other than 200 for the read of
    one record, [fetch_opportunity_details] and [get_lead_email_info]
    raise an exception whose message holds the status code and the body;
    [get_lead_details] does not raise: it returns the formatted error
    text with the same status code and body. *)
Theorem fetch_by_id_failure (w : World) (tr tr1 : list Request)
    (tok url : JSON) :
  opp_salesforce_tools.get_access_token w tr = (Return (tok, url), tr1) ->
  (forall id : JSON,
      let q := record_request w tok url "Opportunity"
                              (py_str (repr_str w) id) in
      status_code (send w tr1 q) <> 200 ->
      opp_salesforce_tools.fetch_opportunity_details w id tr
      = (Raise (Exception ("Error fetching opportunity details: "
                           +:+ pretty (status_code (send w tr1 q)) +:+ ", "
                           +:+ text (send w tr1 q))),
         tr1 ++ [q]))
  /\ (forall lead_id : string,
        let q := record_request w tok url "Lead" lead_id in
        status_code (send w tr1 q) <> 200 ->
        opp_salesforce_tools.get_lead_email_info w lead_id tr
        = (Raise (Exception ("Error fetching lead details: "
                             +:+ pretty (status_code (send w tr1 q)) +:+ ", "
                             +:+ text (send w tr1 q))),
           tr1 ++ [q])
        /\ opp_salesforce_tools.get_lead_details w lead_id tr
           = (Return ("*❌ Error fetching lead details: "
                      +:+ pretty (status_code (send w tr1 q)) +:+ ", "
                      +:+ text (send w tr1 q) +:+ "*"),
              tr1 ++ [q])).
Proof.
  intros Hauth. split.
  - intros id q Hs. apply Z.eqb_neq in Hs.
    unfold opp_salesforce_tools.fetch_opportunity_details. unfold bind at 1.
    rewrite Hauth. io_unfold. subst q. unfold record_request in *.
    now rewrite Hs.
  - intros lead_id q Hs. apply Z.eqb_neq in Hs. split.
    + unfold opp_salesforce_tools.get_lead_email_info. unfold bind at 1.
      rewrite Hauth. io_unfold. subst q. unfold record_request in *.
      now rewrite Hs.
    + unfold opp_salesforce_tools.get_lead_details. unfold bind at 1.
      rewrite Hauth. io_unfold. subst q. unfold record_request in *.
      now rewrite Hs.
Qed.

Lemma fetch_by_id_failure_witness :
  let w := scripted token_ok not_found not_found no_content in
  opp_salesforce_tools.fetch_opportunity_details w (JStr "006A") []
  = (Raise (Exception "Error fetching opportunity details: 404, NOT_FOUND"),
     [token_request w "secretsecret";
      record_request w (JStr "TOKEN") (JStr "https://acme.example")
                     "Opportunity" "006A"]).
Proof.
  intros w.
  apply (fetch_by_id_failure w [] [token_request w "secretsecret"]
           (JStr "TOKEN") (JStr "https://acme.example"));
    [reflexivity | vm_compute; discriminate].
Defined.

(** C4 as stated fails for [get_lead_details]: on a 404 it returns a
    text, it raises nothing. *)
Lemma get_lead_details_counterexample :
  let w := scripted token_ok not_found not_found no_content in
  fst (opp_salesforce_tools.get_lead_details w "00Q1" [])
    = Return "*❌ Error fetching lead details: 404, NOT_FOUND*"
  /\ forall e : Exn,
       fst (opp_salesforce_tools.get_lead_details w "00Q1" []) <> Raise e.
Proof.
  intros w. split; [vm_compute; reflexivity|].
  intros e. vm_compute. discriminate.
Qed.

(** ** Queries with nothing to show *)

(** C6, as the code has it.  When the query is answered 200 with an empty
    (or absent) [records] list, [fetch_opportunities] and [fetch_leads]
    return their fixed text with an empty option mapping, and
    [fetch_case_comments] returns its fixed text alone: it has no option
    mapping to return. *)
Theorem empty_records_messages (w : World) (tr tr1 : list Request)
    (tok url : JSON) :
  salesforce_tool.get_access_token w tr = (Return (tok, url), tr1) ->
  (no_records (send w tr1 (query_request w tok url opportunity_soql)) ->
   opp_salesforce_tools.fetch_opportunities w tr
   = (Return ("*❌ No opportunities found.*", ∅),
      tr1 ++ [query_request w tok url opportunity_soql]))
  /\ (no_records (send w tr1 (query_request w tok url lead_soql)) ->
      opp_salesforce_tools.fetch_leads w tr
      = (Return ("*❌ No leads found.*", ∅),
         tr1 ++ [query_request w tok url lead_soql]))
  /\ (forall case_number : string,
        no_records
          (send w tr1 (query_request w tok url (comment_soql case_number))) ->
        salesforce_tool.fetch_case_comments w case_number tr
        = (Return "*❌ No comments found for this case number.*",
           tr1 ++ [query_request w tok url (comment_soql case_number)])).
Proof.
  intros Hauth. split; [|split].
  - intros (Hs & d & Hbody & Hrecords).
    unfold opp_salesforce_tools.fetch_opportunities. unfold bind at 1.
    rewrite same_get_access_token, Hauth. io_unfold.
    unfold query_request, salesforce_tool.query_url, opportunity_soql in *.
    unfold opp_salesforce_tools.query_url, response_json.
    rewrite Hs, Hbody. cbn [Z.eqb Pos.eqb py_get]. now rewrite Hrecords.
  - intros (Hs & d & Hbody & Hrecords).
    unfold opp_salesforce_tools.fetch_leads. unfold bind at 1.
    rewrite same_get_access_token, Hauth. io_unfold.
    unfold query_request, salesforce_tool.query_url, lead_soql in *.
    unfold opp_salesforce_tools.query_url, response_json.
    rewrite Hs, Hbody. cbn [Z.eqb Pos.eqb py_get]. now rewrite Hrecords.
  - intros case_number (Hs & d & Hbody & Hrecords).
    unfold salesforce_tool.fetch_case_comments. unfold bind at 1.
    rewrite Hauth. io_unfold.
    unfold query_request, comment_soql in *. unfold response_json.
    rewrite Hs, Hbody. cbn [Z.eqb Pos.eqb py_get]. now rewrite Hrecords.
Qed.

Lemma empty_records_messages_witness :
  opp_salesforce_tools.fetch_leads nothing_listed []
  = (Return ("*❌ No leads found.*", ∅),
     [token_request nothing_listed "secretsecret";
      query_request nothing_listed (JStr "TOKEN")
                    (JStr "https://acme.example") lead_soql]).
Proof.
  apply (empty_records_messages nothing_listed []
           [token_request nothing_listed "secretsecret"]
           (JStr "TOKEN") (JStr "https://acme.example"));
    [reflexivity|].
  split; [reflexivity|]. eexists. split; reflexivity.
Defined.

(** C6 as stated fails for case comments: with no comment on the server
    the tool returns a [str], which is no tuple of a text and an empty
    mapping, whatever the text. *)
Lemma case_comments_counterexample :
  returned RStr
    (fst (salesforce_tool.fetch_case_comments nothing_listed "00001001" []))
  = Return (RStr "*❌ No comments found for this case number.*")
  /\ forall message : string,
       returned RStr
         (fst (salesforce_tool.fetch_case_comments nothing_listed "00001001"
                 []))
       <> Return (RTuple message ∅).
Proof.
  split; [vm_compute; reflexivity|].
  intros message. vm_compute. discriminate.
Qed.

(** ** Creating a case *)

(** C8. Once authenticated, [create_case_in_salesforce] sends one POST
    whose JSON body is exactly Subject, Description, Priority,
    Status = New and Origin = Web.  On a 201 answer whose body holds an
    [id] the text returned contains that id and the subject, description
    and priority given; on any other status the formatted error text is
    returned, not raised. *)
Theorem create_case_contract (w : World) (tr tr1 : list Request)
    (tok url : JSON) (subject description priority : string) :
  salesforce_tool.get_access_token w tr = (Return (tok, url), tr1) ->
  let request := case_request w tok url subject description priority in
  let response := send w tr1 request in
  let outcome :=
    salesforce_tool.create_case_in_salesforce w subject description priority
                                              tr in
  method request = POST
  /\ json_payload request
     = Some (JDict [("Subject", JStr subject);
                    ("Description", JStr description);
                    ("Priority", JStr priority);
                    ("Status", JStr "New");
                    ("Origin", JStr "Web")])
  /\ snd outcome = tr1 ++ [request]
  /\ (forall (d : list (string * JSON)) (id : JSON),
        status_code response = 201 ->
        body_json response = Some (JDict d) ->
        dict_lookup "id" d = Some id ->
        exists message,
          fst outcome = Return message
          /\ contains (py_str (repr_str w) id) message
          /\ contains subject message
          /\ contains description message
          /\ contains priority message)
  /\ (status_code response <> 201 ->
      fst outcome
      = Return ("*❌ Error creating case: " +:+ pretty (status_code response)
                +:+ ", " +:+ text response +:+ "*")).
Proof.
  intros Hauth request response outcome.
  assert (outcome
          = (if (status_code response =? 201)%Z then
               match response_json response with
               | Return created_case =>
                   match py_get created_case "id" JNull with
                   | Return case_id =>
                       Return
                         ("*✅ Case Created Successfully!*" +:+ nl +:+ nl
                          +:+ "*🎫 Case ID:* `"
                          +:+ py_str (repr_str w) case_id +:+ "`"
                          +:+ nl +:+ nl
                          +:+ "*🔎 Case Details:*" +:+ nl
                          +:+ "Subject: " +:+ subject +:+ nl
                          +:+ "Description: " +:+ description +:+ nl
                          +:+ "Priority: " +:+ priority)
                   | Raise e => Raise e
                   end
               | Raise e => Raise e
               end
             else
               Return ("*❌ Error creating case: "
                       +:+ pretty (status_code response) +:+ ", "
                       +:+ text response +:+ "*"),
             tr1 ++ [request])) as Hout.
  { subst outcome response request.
    unfold salesforce_tool.create_case_in_salesforce, case_request.
    unfold bind at 1. rewrite Hauth. io_unfold.
    repeat match goal with
           | |- context [if ?b then _ else _] => destruct b
           | |- context [match ?x with Return _ => _ | Raise _ => _ end] =>
               destruct x
           end; reflexivity. }
  split; [reflexivity|]. split; [reflexivity|].
  rewrite Hout. split; [reflexivity|]. split.
  - intros d id Hs Hbody Hid. cbn [fst]. unfold response_json.
    rewrite Hs, Hbody. cbn [Z.eqb Pos.eqb py_get]. rewrite Hid.
    cbn [default from_option Datatypes.id].
    eexists. split; [reflexivity|].
    repeat split; eauto 20 with contains.
  - intros Hs. apply Z.eqb_neq in Hs. cbn [fst]. now rewrite Hs.
Qed.

Lemma create_case_contract_witness :
  let w := scripted token_ok not_found not_found
                    (ok 201 (JDict [("id", JStr "500Z")])) in
  exists message,
    fst (salesforce_tool.create_case_in_salesforce w "X" "Y" "High" [])
      = Return message
    /\ contains "500Z" message /\ contains "X" message
    /\ contains "Y" message /\ contains "High" message.
Proof.
  intros w.
  destruct (create_case_contract w [] [token_request w "secretsecret"]
              (JStr "TOKEN") (JStr "https://acme.example") "X" "Y" "High"
              eq_refl) as (_ & _ & _ & Hcreated & _).
  exact (Hcreated [("id", JStr "500Z")] (JStr "500Z") eq_refl eq_refl eq_refl).
Defined.

(** ** Running a query *)

(** C3. Given the response to the query request, [execute_soql_query]
    returns the [records] of a 200 JSON body, the empty list when the
    body has none, and fails with [QueryError] holding the status code
    and the body on any other status. *)
Theorem execute_soql_query_contract (w : World) (soql : string)
    (tr tr' : list Request) (response : Response) :
  salesforce_tool.soql_response w soql tr = (Return response, tr') ->
  (forall d : list (string * JSON),
      status_code response = 200 ->
      body_json response = Some (JDict d) ->
      salesforce_tool.execute_soql_query w soql tr
      = (Return (default (JList []) (dict_lookup "records" d)), tr'))
  /\ (status_code response <> 200 ->
      salesforce_tool.execute_soql_query w soql tr
      = (Raise (QueryError (status_code response) (text response)), tr')).
Proof.
  intros Hresp. split.
  - intros d Hs Hbody. unfold salesforce_tool.execute_soql_query.
    unfold bind at 1. rewrite Hresp. io_unfold. unfold response_json.
    rewrite Hs, Hbody. reflexivity.
  - intros Hs. apply Z.eqb_neq in Hs.
    unfold salesforce_tool.execute_soql_query.
    unfold bind at 1. rewrite Hresp. io_unfold. now rewrite Hs.
Qed.

Lemma execute_soql_query_contract_witness :
  let w := two_deals acme_deal in
  salesforce_tool.execute_soql_query w "SELECT Id FROM Opportunity" []
  = (Return (JList [acme_deal; beta_deal]),
     [token_request w "secretsecret";
      query_request w (JStr "TOKEN") (JStr "https://acme.example")
                    "SELECT Id FROM Opportunity"]).
Proof.
  intros w.
  apply (proj1 (execute_soql_query_contract w "SELECT Id FROM Opportunity"
                  []
                  [token_request w "secretsecret";
                   query_request w (JStr "TOKEN")
                                 (JStr "https://acme.example")
                                 "SELECT Id FROM Opportunity"]
                  (ok 200 (JDict [("records", JList [acme_deal; beta_deal])]))
                  eq_refl)
               [("records", JList [acme_deal; beta_deal])]);
    reflexivity.
Defined.

(** ** The option lists *)

Section Options.
(** Both loops have one shape: format the record, read its [Id], append
    the text and enter the [Id] under the running index. *)
Variable text_of : Z -> JSON -> result string.
Variable step :
  Z -> JSON -> string * gmap Z JSON -> result (string * gmap Z JSON).
Variable well_formed : JSON -> Prop.

Hypothesis step_eq : forall i r t o,
  step i r (t, o)
  = (block <~ text_of i r ;;
     id <~ py_getitem r "Id" ;;
     Return (t +:+ block, <[i := id]> o)).
Hypothesis formats : forall i r,
  well_formed r ->
  exists rest, text_of i r = Return ("*Option " +:+ pretty i +:+ rest).
Hypothesis identified : forall r,
  well_formed r -> exists id, py_getitem r "Id" = Return id.

Lemma for_enumerate_options (items : list JSON) :
  forall (index : Z) (t : string) (o : gmap Z JSON),
    Forall well_formed items ->
    exists (blocks : list string) (o' : gmap Z JSON),
      for_enumerate index items step (t, o)
        = Return (t +:+ concat_strings blocks, o')
      /\ length blocks = length items
      /\ (forall (i : nat) (r : JSON),
            items !! i = Some r ->
            exists b rest id,
              blocks !! i = Some b
              /\ text_of (index + Z.of_nat i) r = Return b
              /\ b = "*Option " +:+ pretty (index + Z.of_nat i) +:+ rest
              /\ py_getitem r "Id" = Return id
              /\ o' !! (index + Z.of_nat i) = Some id)
      /\ (forall k : Z,
            k < index \/ index + Z.of_nat (length items) <= k ->
            o' !! k = o !! k).
Proof.
  induction items as [|r items IH]; intros index t o Hwf.
  - exists [], o. cbn. rewrite string_app_nil_r.
    split; [reflexivity|]. split; [reflexivity|]. split; [|auto].
    intros i r Hi. now rewrite lookup_nil in Hi.
  - apply Forall_cons in Hwf as [Hr Hitems].
    destruct (formats index r Hr) as [rest Hb].
    destruct (identified r Hr) as [id Hid].
    destruct (IH (index + 1) (t +:+ "*Option " +:+ pretty index +:+ rest)
                 (<[index := id]> o) Hitems)
      as (blocks & o' & Hloop & Hlen & Hitem & Hframe).
    exists (("*Option " +:+ pretty index +:+ rest) :: blocks), o'.
    split; [|split; [|split]].
    + cbn [for_enumerate]. rewrite step_eq, Hb, Hid. cbn [rbind].
      rewrite Hloop. cbn [concat_strings foldr].
      now rewrite !string_app_assoc.
    + cbn. now rewrite Hlen.
    + intros [|i] r' Hi.
      * cbn in Hi. inversion Hi; subst r'.
        exists ("*Option " +:+ pretty index +:+ rest), rest, id.
        rewrite Z.add_0_r. repeat split; [assumption..|].
        rewrite Hframe by lia. apply lookup_insert_eq.
      * cbn in Hi. destruct (Hitem i r' Hi)
          as (b & rest' & id' & ? & ? & ? & ? & ?).
        exists b, rest', id'.
        replace (index + Z.of_nat (S i)) with (index + 1 + Z.of_nat i)
          by lia.
        now repeat split.
    + intros k Hk. rewrite Hframe by (cbn [length] in Hk; lia).
      apply lookup_insert_ne. cbn [length] in Hk. lia.
Qed.

(** From the first index 1 and an empty mapping the outcome is
    [numbered]. *)
Lemma for_enumerate_numbered (items : list JSON) (header : string) :
  Forall well_formed items ->
  exists text options,
    for_enumerate 1 items step (header, ∅) = Return (text, options)
    /\ numbered text_of header items text options.
Proof.
  intros Hwf.
  destruct (for_enumerate_options items 1 header ∅ Hwf)
    as (blocks & o' & Hloop & Hlen & Hitem & Hframe).
  exists (header +:+ concat_strings blocks), o'.
  split; [exact Hloop|]. exists blocks.
  split; [reflexivity|]. split; [exact Hlen|]. split; [exact Hitem|].
  intros k. rewrite elem_of_dom. split.
  - intros Hk.
    destruct (decide (1 <= k <= Z.of_nat (length items))) as [|Hout];
      [assumption|].
    rewrite Hframe, lookup_empty in Hk by lia. now destruct Hk.
  - intros Hk.
    destruct (lookup_lt_is_Some_2 items (Z.to_nat (k - 1))) as [r Hr];
      [lia|].
    destruct (Hitem _ _ Hr) as (b & rest & id & _ & _ & _ & _ & Hopt).
    replace (1 + Z.of_nat (Z.to_nat (k - 1))) with k in Hopt by lia.
    now exists id.
Qed.
End Options.

Lemma has_keys_lookup (keys : list string) (d : list (string * JSON))
    (k : string) :
  has_keys keys (JDict d) -> In k keys -> exists v, dict_lookup k d = Some v.
Proof.
  intros (d' & Hd & Hkeys) Hin. inversion Hd; subst d'.
  rewrite Forall_forall in Hkeys. apply Hkeys. now apply list_elem_of_In.
Qed.

Lemma opportunity_text_formats (w : World) (i : Z) (r : JSON) :
  opportunity_record r ->
  exists rest,
    opp_salesforce_tools.opportunity_text w i r
    = Return ("*Option " +:+ pretty i +:+ rest).
Proof.
  intros Hr. pose proof Hr as (d & -> & _).
  destruct (has_keys_lookup _ d "Name" Hr) as [name Hname]; [cbn; tauto|].
  destruct (has_keys_lookup _ d "CloseDate" Hr) as [cd Hcd]; [cbn; tauto|].
  destruct (has_keys_lookup _ d "Amount" Hr) as [am Ham]; [cbn; tauto|].
  destruct (has_keys_lookup _ d "StageName" Hr) as [sn Hsn]; [cbn; tauto|].
  unfold opp_salesforce_tools.opportunity_text. cbn [py_getitem].
  rewrite Hname, Hcd, Ham, Hsn. cbn [rbind]. eexists. reflexivity.
Qed.

Lemma lead_text_formats (w : World) (i : Z) (r : JSON) :
  lead_record r ->
  exists rest,
    opp_salesforce_tools.lead_text w i r
    = Return ("*Option " +:+ pretty i +:+ rest).
Proof.
  intros (d & -> & _). unfold opp_salesforce_tools.lead_text.
  cbn [py_get rbind]. eexists. reflexivity.
Qed.

Lemma record_identified (keys : list string) :
  In "Id" keys ->
  forall r, has_keys keys r -> exists id, py_getitem r "Id" = Return id.
Proof.
  intros Hin r Hr. pose proof Hr as (d & -> & _).
  destruct (has_keys_lookup _ d "Id" Hr Hin) as [id Hid].
  exists id. cbn [py_getitem]. now rewrite Hid.
Qed.

Lemma truthy_list (items : list JSON) :
  items <> [] -> py_truthy (JList items) = true.
Proof. now destruct items. Qed.

(** C5. For a 200 answer listing N >= 1 records, [fetch_opportunities]
    (every record holding Id, Name, StageName, CloseDate and Amount) and
    [fetch_leads] (every record holding Id) return the header followed by
    N blocks, the i-th being the text of the i-th record as returned,
    under the label [Option i]; the option mapping has exactly the keys
    1..N and sends i to the [Id] of the i-th record. *)
Theorem options_numbered_in_order (w : World) (tr tr1 : list Request)
    (tok url : JSON) (items : list JSON) :
  opp_salesforce_tools.get_access_token w tr = (Return (tok, url), tr1) ->
  items <> [] ->
  (lists_records (send w tr1 (query_request w tok url opportunity_soql))
                 items ->
   Forall opportunity_record items ->
   exists text options,
     opp_salesforce_tools.fetch_opportunities w tr
     = (Return (text, options),
        tr1 ++ [query_request w tok url opportunity_soql])
     /\ numbered (opp_salesforce_tools.opportunity_text w)
                 opportunities_header items text options)
  /\ (lists_records (send w tr1 (query_request w tok url lead_soql)) items ->
      Forall lead_record items ->
      exists text options,
        opp_salesforce_tools.fetch_leads w tr
        = (Return (text, options), tr1 ++ [query_request w tok url lead_soql])
        /\ numbered (opp_salesforce_tools.lead_text w) leads_header items
                    text options).
Proof.
  intros Hauth Hne. split.
  - intros (Hs & d & Hbody & Hrecords) Hwf.
    destruct (for_enumerate_numbered
                (opp_salesforce_tools.opportunity_text w)
                (opp_salesforce_tools.opportunity_step w)
                opportunity_record
                (fun i r t o => eq_refl)
                (opportunity_text_formats w)
                (record_identified
                   ["Id"; "Name"; "StageName"; "CloseDate"; "Amount"]
                   ltac:(cbn; tauto))
                items opportunities_header Hwf)
      as (text & options & Hloop & Hnumbered).
    exists text, options. split; [|exact Hnumbered].
    unfold opp_salesforce_tools.fetch_opportunities. unfold bind at 1.
    rewrite Hauth. io_unfold.
    unfold query_request, salesforce_tool.query_url, opportunity_soql in *.
    unfold opp_salesforce_tools.query_url, response_json.
    rewrite Hs, Hbody. cbn [Z.eqb Pos.eqb py_get]. rewrite Hrecords.
    cbn [default from_option Datatypes.id]. rewrite (truthy_list _ Hne).
    cbn [negb py_iter]. unfold opportunities_header in Hloop.
    now rewrite Hloop.
  - intros (Hs & d & Hbody & Hrecords) Hwf.
    destruct (for_enumerate_numbered
                (opp_salesforce_tools.lead_text w)
                (opp_salesforce_tools.lead_step w)
                lead_record
                (fun i r t o => eq_refl)
                (lead_text_formats w)
                (record_identified ["Id"] ltac:(cbn; tauto))
                items leads_header Hwf)
      as (text & options & Hloop & Hnumbered).
    exists text, options. split; [|exact Hnumbered].
    unfold opp_salesforce_tools.fetch_leads. unfold bind at 1.
    rewrite Hauth. io_unfold.
    unfold query_request, salesforce_tool.query_url, lead_soql in *.
    unfold opp_salesforce_tools.query_url, response_json.
    rewrite Hs, Hbody. cbn [Z.eqb Pos.eqb py_get]. rewrite Hrecords.
    cbn [default from_option Datatypes.id]. rewrite (truthy_list _ Hne).
    cbn [negb py_iter]. unfold leads_header in Hloop.
    now rewrite Hloop.
Qed.

Lemma options_numbered_in_order_witness :
  let w := two_deals acme_deal in
  exists text options,
    opp_salesforce_tools.fetch_opportunities w []
    = (Return (text, options),
       [token_request w "secretsecret"]
       ++ [query_request w (JStr "TOKEN") (JStr "https://acme.example")
                         opportunity_soql])
    /\ numbered (opp_salesforce_tools.opportunity_text w)
                opportunities_header [acme_deal; beta_deal] text options.
Proof.
  intros w.
  apply (proj1 (options_numbered_in_order w []
                  [token_request w "secretsecret"]
                  (JStr "TOKEN") (JStr "https://acme.example")
                  [acme_deal; beta_deal] eq_refl ltac:(discriminate))).
  - split; [reflexivity|]. eexists. split; reflexivity.
  - repeat constructor; eexists; (split; [reflexivity|]);
      repeat constructor; vm_compute; eauto.
Defined.

(** ** Leads with missing fields *)

Lemma lead_text_dict (w : World) (i : Z) (d : list (string * JSON)) :
  opp_salesforce_tools.lead_text w i (JDict d) = Return (lead_block w i d).
Proof.
  unfold opp_salesforce_tools.lead_text, lead_block, shown_or_empty.
  cbn [py_get rbind].
  destruct (dict_lookup "FirstName" d), (dict_lookup "LastName" d),
    (dict_lookup "Company" d), (dict_lookup "Email" d),
    (dict_lookup "LeadSource" d); reflexivity.
Qed.

(** The loop goes through when every record has an Id. *)
Lemma lead_loop_returns (w : World) (ds : list (list (string * JSON))) :
  forall (index : Z) (t : string) (o : gmap Z JSON),
    Forall (fun d => is_Some (dict_lookup "Id" d)) ds ->
    exists o',
      for_enumerate index (map JDict ds) (opp_salesforce_tools.lead_step w)
                    (t, o)
      = Return (t +:+ concat_strings (lead_blocks w index ds), o').
Proof.
  induction ds as [|d ds IH]; intros index t o Hids.
  - exists o. cbn. now rewrite string_app_nil_r.
  - apply Forall_cons in Hids as [[id Hid] Hids].
    destruct (IH (index + 1) (t +:+ lead_block w index d)
                 (<[index := id]> o) Hids) as [o' Hloop].
    exists o'. cbn [map for_enumerate].
    unfold opp_salesforce_tools.lead_step at 1.
    rewrite lead_text_dict. cbn [rbind py_getitem]. rewrite Hid.
    cbv beta iota. cbn [rbind]. rewrite Hloop.
  cbn [lead_blocks concat_strings foldr].
    now rewrite string_app_assoc.
Qed.

(** It stops with [KeyError] at the first record without an Id. *)
Lemma lead_loop_raises (w : World) (ds : list (list (string * JSON))) :
  forall (index : Z) (t : string) (o : gmap Z JSON),
    Exists (fun d => dict_lookup "Id" d = None) ds ->
    for_enumerate index (map JDict ds) (opp_salesforce_tools.lead_step w)
                  (t, o)
    = Raise (KeyError "Id").
Proof.
  induction ds as [|d ds IH]; intros index t o Hnone.
  - now apply Exists_nil in Hnone.
  - cbn [map for_enumerate].
    unfold opp_salesforce_tools.lead_step at 1.
    rewrite lead_text_dict. cbn [rbind py_getitem].
    destruct (dict_lookup "Id" d) as [id|] eqn:Hid; [|reflexivity].
    cbn [rbind]. apply IH.
    apply Exists_cons in Hnone as [Hd|Hrest]; [congruence|exact Hrest].
Qed.

(** C10. For a 200 answer whose records are dicts, [fetch_leads]
    succeeds as soon as every record holds an Id: FirstName, LastName,
    Company, Email and LeadSource may be missing, and each missing one
    shows as the empty string in the text.  If some record holds no Id
    the call fails with [KeyError] for that key. *)
Theorem leads_need_only_id (w : World) (tr tr1 : list Request)
    (tok url : JSON) (ds : list (list (string * JSON))) :
  opp_salesforce_tools.get_access_token w tr = (Return (tok, url), tr1) ->
  lists_records (send w tr1 (query_request w tok url lead_soql))
                (map JDict ds) ->
  (Forall (fun d => is_Some (dict_lookup "Id" d)) ds ->
   exists options,
     opp_salesforce_tools.fetch_leads w tr
     = (Return (leads_display w ds, options),
        tr1 ++ [query_request w tok url lead_soql]))
  /\ (Exists (fun d => dict_lookup "Id" d = None) ds ->
      opp_salesforce_tools.fetch_leads w tr
      = (Raise (KeyError "Id"), tr1 ++ [query_request w tok url lead_soql])).
Proof.
  intros Hauth (Hs & body & Hbody & Hrecords).
  assert (opp_salesforce_tools.fetch_leads w tr
          = (match ds with
             | [] => Return ("*❌ No leads found.*", ∅)
             | _ => for_enumerate 1 (map JDict ds)
                      (opp_salesforce_tools.lead_step w) (leads_header, ∅)
             end,
             tr1 ++ [query_request w tok url lead_soql])) as Hfetch.
  { unfold opp_salesforce_tools.fetch_leads. unfold bind at 1.
    rewrite Hauth. io_unfold.
    unfold query_request, salesforce_tool.query_url, lead_soql in *.
    unfold opp_salesforce_tools.query_url, response_json.
    rewrite Hs, Hbody. cbn [Z.eqb Pos.eqb py_get]. rewrite Hrecords.
    cbn [default from_option Datatypes.id]. now destruct ds. }
  rewrite Hfetch. split.
  - intros Hids. destruct ds as [|d ds]; [now exists ∅|].
    destruct (lead_loop_returns w (d :: ds) 1 leads_header ∅ Hids)
      as [o' Hloop].
    exists o'. now rewrite Hloop.
  - intros Hnone. destruct ds as [|d ds]; [now apply Exists_nil in Hnone|].
    now rewrite (lead_loop_raises w (d :: ds) 1 leads_header ∅ Hnone).
Qed.

Lemma leads_need_only_id_witness :
  exists options,
    opp_salesforce_tools.fetch_leads two_leads []
    = (Return (leads_display two_leads sparse_leads, options),
       [token_request two_leads "secretsecret"]
       ++ [query_request two_leads (JStr "TOKEN")
                         (JStr "https://acme.example") lead_soql]).
Proof.
  apply (proj1 (leads_need_only_id two_leads []
                  [token_request two_leads "secretsecret"]
                  (JStr "TOKEN") (JStr "https://acme.example") sparse_leads
                  eq_refl
                  (conj eq_refl
                        (ex_intro _ _ (conj eq_refl eq_refl))))).
  repeat constructor; eexists; reflexivity.
Defined.

(** ** The end-to-end scenario

    Two opportunities, option 1 moved to Closed Won: the mapping is
    1 to 006A and 2 to 006B, one record read and one PATCH setting
    StageName are sent, each after its own token request. *)
Example two_deals_mapping :
  exists text options,
    fst (opp_salesforce_tools.fetch_opportunities (two_deals acme_deal) [])
      = Return (text, options)
    /\ options !! 1 = Some (JStr "006A")
    /\ options !! 2 = Some (JStr "006B")
    /\ options !! 3 = None.
Proof. eexists _, _. repeat split; vm_compute; reflexivity. Qed.

Example two_deals_transition :
  let w := two_deals acme_deal in
  let sent :=
    snd (opp_salesforce_tools.validate_and_update_lifecycle_transition
           w 1 "Closed Won" []) in
  map method sent = [POST; GET; POST; GET; POST; PATCH]
  /\ map json_payload (filter (fun r => is_patch r) sent)
     = [Some (JDict [("StageName", JStr "Closed Won")])].
Proof. split; vm_compute; reflexivity. Qed.

(** ** Authentication, continued *)

(** X1. Without SF_PASSWORD or without SF_SECURITY_TOKEN the two values
    cannot be concatenated: [get_access_token] raises [TypeError] before
    any request is sent. *)
Theorem auth_needs_password_variables (w : World) (tr : list Request) :
  getenv w "SF_PASSWORD" = None \/ getenv w "SF_SECURITY_TOKEN" = None ->
  salesforce_tool.get_access_token w tr = (Raise TypeError, tr)
  /\ opp_salesforce_tools.get_access_token w tr = (Raise TypeError, tr).
Proof.
  intros Hmissing.
  assert (env_concat (getenv w "SF_PASSWORD") (getenv w "SF_SECURITY_TOKEN")
          = Raise TypeError) as Henv.
  { destruct Hmissing as [-> | ->]; [reflexivity|].
    now destruct (getenv w "SF_PASSWORD"). }
  split.
  - unfold salesforce_tool.get_access_token. io_unfold. now rewrite Henv.
  - unfold opp_salesforce_tools.get_access_token. io_unfold.
    now rewrite Henv.
Qed.

Lemma auth_needs_password_variables_witness :
  salesforce_tool.get_access_token no_credentials [] = (Raise TypeError, []).
Proof.
  apply (auth_needs_password_variables no_credentials []). now left.
Defined.

(** X2. With both variables set, one POST goes to the token endpoint with
    the password and the security token concatenated.  On a 200 answer
    holding a JSON object the result is its [access_token] and
    [instance_url], [None] standing for a key the object lacks; a 200
    answer whose body is not JSON raises the decoding error. *)
Theorem token_success (w : World) (tr : list Request) (p t : string) :
  getenv w "SF_PASSWORD" = Some p ->
  getenv w "SF_SECURITY_TOKEN" = Some t ->
  status_code (send w tr (token_request w (p +:+ t))) = 200 ->
  let response := send w tr (token_request w (p +:+ t)) in
  (forall d : list (string * JSON),
      body_json response = Some (JDict d) ->
      opp_salesforce_tools.get_access_token w tr
      = (Return (default JNull (dict_lookup "access_token" d),
                 default JNull (dict_lookup "instance_url" d)),
         tr ++ [token_request w (p +:+ t)]))
  /\ (body_json response = None ->
      opp_salesforce_tools.get_access_token w tr
      = (Raise JSONDecodeError, tr ++ [token_request w (p +:+ t)])).
Proof.
  intros Hp Ht Hs response. subst response.
  unfold opp_salesforce_tools.get_access_token. io_unfold.
  rewrite Hp, Ht. cbn [env_concat].
  unfold token_request, token_endpoint in *. rewrite Hs.
  cbn [Z.eqb Pos.eqb]. unfold response_json. split.
  - intros d Hbody. now rewrite Hbody.
  - intros Hbody. now rewrite Hbody.
Qed.

Lemma token_success_witness :
  opp_salesforce_tools.get_access_token (two_deals acme_deal) []
  = (Return (JStr "TOKEN", JStr "https://acme.example"),
     [token_request (two_deals acme_deal) "secretsecret"]).
Proof.
  apply (proj1 (token_success (two_deals acme_deal) [] "secret" "secret"
                  eq_refl eq_refl eq_refl)
               [("access_token", JStr "TOKEN");
                ("instance_url", JStr "https://acme.example")]).
  reflexivity.
Defined.

(** X3. Every tool authenticates first, and a failed authentication is
    the tool's own failure: the same exception leaves the tool and no
    request follows the token request. *)
Theorem auth_failure_propagates (w : World) (tr tr' : list Request)
    (e : Exn) :
  salesforce_tool.get_access_token w tr = (Raise e, tr') ->
  (forall n, salesforce_tool.fetch_case_comments w n tr = (Raise e, tr'))
  /\ (forall s d p,
        salesforce_tool.create_case_in_salesforce w s d p tr = (Raise e, tr'))
  /\ (forall c,
        salesforce_tool.delete_case_in_salesforce w c tr = (Raise e, tr'))
  /\ opp_salesforce_tools.fetch_opportunities w tr = (Raise e, tr')
  /\ (forall id,
        opp_salesforce_tools.fetch_opportunity_details w id tr
        = (Raise e, tr'))
  /\ (forall id stage,
        opp_salesforce_tools.update_opportunity_stage w id stage tr
        = (Raise e, tr'))
  /\ (forall choice stage,
        opp_salesforce_tools.validate_and_update_lifecycle_transition
          w choice stage tr
        = (Raise e, tr'))
  /\ opp_salesforce_tools.fetch_leads w tr = (Raise e, tr')
  /\ (forall id, opp_salesforce_tools.get_lead_details w id tr = (Raise e, tr'))
  /\ (forall id,
        opp_salesforce_tools.get_lead_email_info w id tr = (Raise e, tr')).
Proof.
  intros Hauth.
  assert (opp_salesforce_tools.get_access_token w tr = (Raise e, tr'))
    as Hauth' by exact Hauth.
  assert (opp_salesforce_tools.fetch_opportunities w tr = (Raise e, tr'))
    as Hfetch.
  { unfold opp_salesforce_tools.fetch_opportunities. unfold bind at 1.
    now rewrite Hauth'. }
  repeat split; intros;
    try exact Hfetch;
    match goal with
    | |- ?f _ _ _ _ _ _ = _ => unfold f
    | |- ?f _ _ _ _ _ = _ => unfold f
    | |- ?f _ _ _ _ = _ => unfold f
    | |- ?f _ _ _ = _ => unfold f
    | |- ?f _ _ = _ => unfold f
    end;
    unfold bind at 1; now rewrite ?Hauth, ?Hauth', ?Hfetch.
Qed.

Lemma auth_failure_propagates_witness :
  opp_salesforce_tools.validate_and_update_lifecycle_transition
    login_refused 1 "Closed Won" []
  = (Raise (Exception "Error fetching access token: 401, invalid_grant"),
     [token_request login_refused "secretsecret"]).
Proof.
  apply (auth_failure_propagates login_refused []
           [token_request login_refused "secretsecret"]
           (Exception "Error fetching access token: 401, invalid_grant")
           eq_refl).
Defined.

(** ** What a computation may send *)

Lemma sends_only_ret {A : Type} (P : Request -> Prop) (a : A) :
  sends_only P (ret a).
Proof.
  intros tr r tr' H. inversion H; subst. exists []. now rewrite app_nil_r.
Qed.

Lemma sends_only_raise {A : Type} (P : Request -> Prop) (e : Exn) :
  sends_only P (@raise A e).
Proof.
  intros tr r tr' H. inversion H; subst. exists []. now rewrite app_nil_r.
Qed.

Lemma sends_only_lift {A : Type} (P : Request -> Prop) (x : result A) :
  sends_only P (lift x).
Proof.
  intros tr r tr' H. inversion H; subst. exists []. now rewrite app_nil_r.
Qed.

Lemma sends_only_request (w : World) (P : Request -> Prop) (q : Request) :
  P q -> sends_only P (request w q).
Proof.
  intros HP tr r tr' H. inversion H; subst. exists [q]. now repeat constructor.
Qed.

Lemma sends_only_bind {A B : Type} (P : Request -> Prop) (m : IO A)
    (k : A -> IO B) :
  sends_only P m -> (forall a, sends_only P (k a)) -> sends_only P (bind m k).
Proof.
  intros Hm Hk tr r tr' H. unfold bind in H.
  destruct (m tr) as [[a|e] tr1] eqn:Hmtr.
  - destruct (Hm _ _ _ Hmtr) as (s1 & -> & H1).
    destruct (Hk a _ _ _ H) as (s2 & -> & H2).
    exists (s1 ++ s2). rewrite app_assoc. split; [reflexivity|].
    now apply Forall_app.
  - inversion H; subst. exact (Hm _ _ _ Hmtr).
Qed.

Lemma sends_only_weaken {A : Type} (P Q : Request -> Prop) (m : IO A) :
  (forall r, P r -> Q r) -> sends_only P m -> sends_only Q m.
Proof.
  intros HPQ Hm tr r tr' H. destruct (Hm _ _ _ H) as (sent & -> & Hsent).
  exists sent. split; [reflexivity|]. eapply Forall_impl; eauto.
Qed.

Ltac sends_step :=
  first
    [ apply sends_only_ret
    | apply sends_only_raise
    | apply sends_only_lift
    | apply sends_only_request
    | apply sends_only_bind
    | match goal with
      | |- forall _, _ => intros ?
      | |- sends_only _ (let (_, _) := ?p in _) => destruct p
      | |- sends_only _ (if ?b then _ else _) => destruct b
      | |- sends_only _ (match ?x with Some _ => _ | None => _ end) =>
          destruct x
      end ].

Lemma get_access_token_reads (w : World) :
  sends_only reads (opp_salesforce_tools.get_access_token w).
Proof.
  unfold opp_salesforce_tools.get_access_token, requests_post.
  repeat sends_step. right. now split.
Qed.

Ltac reads_request :=
  first [ left; reflexivity | right; split; reflexivity ].

(** X4. The tools that fetch never write: whatever the servers answer
    and whatever the outcome, [fetch_case_comments],
    [fetch_opportunities], [fetch_opportunity_details], [fetch_leads],
    [get_lead_details] and [get_lead_email_info] send nothing but GET
    requests and the POST to the token endpoint. *)
Theorem read_tools_never_write (w : World) :
  (forall n, sends_only reads (salesforce_tool.fetch_case_comments w n))
  /\ sends_only reads (opp_salesforce_tools.fetch_opportunities w)
  /\ (forall id,
        sends_only reads (opp_salesforce_tools.fetch_opportunity_details w id))
  /\ sends_only reads (opp_salesforce_tools.fetch_leads w)
  /\ (forall id, sends_only reads (opp_salesforce_tools.get_lead_details w id))
  /\ (forall id,
        sends_only reads (opp_salesforce_tools.get_lead_email_info w id)).
Proof.
  repeat split; intros.
  - unfold salesforce_tool.fetch_case_comments, requests_get.
    repeat sends_step; reads_request.
  - unfold opp_salesforce_tools.fetch_opportunities, requests_get.
    repeat sends_step; reads_request.
  - unfold opp_salesforce_tools.fetch_opportunity_details, requests_get.
    repeat sends_step; reads_request.
  - unfold opp_salesforce_tools.fetch_leads, requests_get.
    repeat sends_step; reads_request.
  - unfold opp_salesforce_tools.get_lead_details, requests_get.
    repeat sends_step; reads_request.
  - unfold opp_salesforce_tools.get_lead_email_info, requests_get.
    repeat sends_step; reads_request.
Qed.

(** What [update_opportunity_stage] sends: reads only (when the
    authentication fails), or the token request and then the PATCH. *)
Lemma update_opportunity_stage_sends (w : World) (id : JSON)
    (new_stage : string) (tr tr' : list Request) (r : result string) :
  opp_salesforce_tools.update_opportunity_stage w id new_stage tr = (r, tr') ->
  exists sent,
    tr' = tr ++ sent
    /\ (Forall reads sent
        \/ exists before tok url,
             Forall reads before
             /\ sent = before ++ [patch_request w tok url
                                   (py_str (repr_str w) id) new_stage]).
Proof.
  unfold opp_salesforce_tools.update_opportunity_stage. unfold bind at 1.
  destruct (opp_salesforce_tools.get_access_token w tr)
    as [[[tok url]|e] tr1] eqn:Hauth.
  - destruct (get_access_token_reads w _ _ _ Hauth) as (s1 & -> & Hs1).
    io_unfold. intros H. exists (s1 ++ [patch_request w tok url
                                     (py_str (repr_str w) id) new_stage]).
    split.
    + rewrite app_assoc. unfold patch_request. io_cases H; now inversion H.
    + right. now exists s1, tok, url.
  - intros H. inversion H; subst.
    destruct (get_access_token_reads w _ _ _ Hauth) as (s1 & -> & Hs1).
    exists s1. split; [reflexivity|]. now left.
Qed.

(** X5. Whatever the servers answer and whatever the outcome, the
    lifecycle transition sends reads only, except that its last request
    may be one PATCH: the one that sets [StageName] to the requested
    stage.  It never sends two writes, and never a write followed by
    anything. *)
Theorem transition_writes_at_most_once (w : World) (choice : Z)
    (new_stage : string) (tr tr' : list Request) (r : result string) :
  opp_salesforce_tools.validate_and_update_lifecycle_transition
    w choice new_stage tr = (r, tr') ->
  exists sent,
    tr' = tr ++ sent
    /\ (Forall reads sent
        \/ exists before tok url id,
             Forall reads before
             /\ sent = before ++ [patch_request w tok url id new_stage]).
Proof.
  destruct (read_tools_never_write w) as (_ & Hlist & Hrecord & _).
  unfold opp_salesforce_tools.validate_and_update_lifecycle_transition.
  unfold bind at 1.
  destruct (opp_salesforce_tools.fetch_opportunities w tr)
    as [[[formatted options]|e] tr1] eqn:Hfetch.
  2:{ intros H. inversion H; subst.
      destruct (Hlist _ _ _ Hfetch) as (s1 & -> & Hs1). exists s1. auto. }
  destruct (Hlist _ _ _ Hfetch) as (s1 & -> & Hs1).
  destruct (size options =? 0)%nat.
  { intros H. inversion H; subst. exists s1. auto. }
  destruct (options !! choice) as [id|].
  2:{ intros H. inversion H; subst. exists s1. auto. }
  unfold bind at 1.
  destruct (opp_salesforce_tools.fetch_opportunity_details w id (tr ++ s1))
    as [[details|e] tr2] eqn:Hdetails.
  2:{ intros H. inversion H; subst.
      destruct (Hrecord id _ _ _ Hdetails) as (s2 & -> & Hs2).
      exists (s1 ++ s2). rewrite app_assoc. split; [reflexivity|].
      left. now apply Forall_app. }
  destruct (Hrecord id _ _ _ Hdetails) as (s2 & -> & Hs2).
  assert (Forall reads (s1 ++ s2)) as Hs12 by now apply Forall_app.
  rewrite <- app_assoc in *.
  unfold bind at 1. unfold lift at 1.
  destruct (py_get details "StageName" (JStr "Not Available"))
    as [current_stage|e].
  2:{ intros H. inversion H; subst. exists (s1 ++ s2). auto. }
  destruct (py_eq_str current_stage new_stage).
  { unfold bind, lift, ret.
    destruct (py_getitem details "Name"); intros H; inversion H; subst;
      exists (s1 ++ s2); auto. }
  unfold bind at 1. unfold lift at 1.
  destruct (py_getitem details "Name") as [name|e].
  2:{ intros H. inversion H; subst. exists (s1 ++ s2). auto. }
  unfold bind at 1.
  destruct (opp_salesforce_tools.update_opportunity_stage w id new_stage
              (tr ++ s1 ++ s2)) as [u tr3] eqn:Hupdate.
  destruct (update_opportunity_stage_sends _ _ _ _ _ _ Hupdate)
    as (s3 & -> & Hs3).
  intros H.
  assert (tr' = (tr ++ s1 ++ s2) ++ s3) as ->.
  { destruct u; [|now inversion H]. revert H. io_unfold.
    intros H. io_cases H; now inversion H. }
  exists ((s1 ++ s2) ++ s3). split; [now rewrite !app_assoc|].
  destruct Hs3 as [Hs3|(before & tok & url & Hbefore & ->)].
  - left. now apply Forall_app.
  - right. exists ((s1 ++ s2) ++ before), tok, url, (py_str (repr_str w) id).
    split; [now apply Forall_app | now rewrite app_assoc].
Qed.

Lemma transition_writes_at_most_once_witness :
  let w := two_deals acme_deal in
  exists sent,
    [token_request w "secretsecret";
     query_request w (JStr "TOKEN") (JStr "https://acme.example")
                   opportunity_soql;
     token_request w "secretsecret";
     record_request w (JStr "TOKEN") (JStr "https://acme.example")
                    "Opportunity" "006A";
     token_request w "secretsecret";
     patch_request w (JStr "TOKEN") (JStr "https://acme.example") "006A"
                   "Closed Won"]
    = [] ++ sent
    /\ (Forall reads sent
        \/ exists before tok url id,
             Forall reads before
             /\ sent = before ++ [patch_request w tok url id "Closed Won"]).
Proof.
  intros w.
  eapply (transition_writes_at_most_once w 1 "Closed Won" []).
  vm_compute. reflexivity.
Defined.

(** ** Writes *)

(** X6. Once authenticated, [update_opportunity_stage] sends one PATCH
    whose body is the new [StageName] and returns a text for every
    answer: the success text on 204 and only then, otherwise the failure
    text with the status code and the body.  It raises nothing. *)
Theorem update_stage_outcomes (w : World) (tr tr1 : list Request)
    (tok url id : JSON) (new_stage : string) :
  opp_salesforce_tools.get_access_token w tr = (Return (tok, url), tr1) ->
  let request :=
    patch_request w tok url (py_str (repr_str w) id) new_stage in
  let response := send w tr1 request in
  exists message,
    opp_salesforce_tools.update_opportunity_stage w id new_stage tr
    = (Return message, tr1 ++ [request])
    /\ (status_code response = 204 ->
        message = "🎉 Opportunity stage successfully updated to "
                  +:+ new_stage +:+ "!")
    /\ (status_code response <> 204 ->
        message = "❌ Failed to update stage: "
                  +:+ pretty (status_code response) +:+ ", "
                  +:+ text response).
Proof.
  intros Hauth request response. subst response request.
  unfold opp_salesforce_tools.update_opportunity_stage. unfold bind at 1.
  rewrite Hauth. io_unfold. unfold patch_request.
  destruct (status_code _ =? 204)%Z eqn:Hs; eexists; (split; [reflexivity|]).
  - split; [reflexivity|]. apply Z.eqb_eq in Hs. now intros [].
  - split; [|reflexivity]. apply Z.eqb_neq in Hs. now intros ?.
Qed.

Lemma update_stage_outcomes_witness :
  let w := two_deals acme_deal in
  opp_salesforce_tools.update_opportunity_stage w (JStr "006A") "Closed Won"
    []
  = (Return "🎉 Opportunity stage successfully updated to Closed Won!",
     [token_request w "secretsecret";
      patch_request w (JStr "TOKEN") (JStr "https://acme.example") "006A"
                    "Closed Won"]).
Proof.
  intros w.
  destruct (update_stage_outcomes w [] [token_request w "secretsecret"]
              (JStr "TOKEN") (JStr "https://acme.example") (JStr "006A")
              "Closed Won" eq_refl)
    as (message & Hrun & Hdone & _).
  rewrite Hrun, (Hdone eq_refl). reflexivity.
Defined.

(** X7. Once authenticated, [delete_case_in_salesforce] sends one DELETE
    for the case and returns a text naming the case id for every answer:
    the success text on 204 and only then, otherwise the error text with
    the status code and the body.  It raises nothing. *)
Theorem delete_case_outcomes (w : World) (tr tr1 : list Request)
    (tok url : JSON) (case_id : string) :
  salesforce_tool.get_access_token w tr = (Return (tok, url), tr1) ->
  let request := delete_request w tok url case_id in
  let response := send w tr1 request in
  exists message,
    salesforce_tool.delete_case_in_salesforce w case_id tr
    = (Return message, tr1 ++ [request])
    /\ contains case_id message
    /\ (status_code response = 204 ->
        message = "*✅ Case with ID `" +:+ case_id
                  +:+ "` was deleted successfully!*")
    /\ (status_code response <> 204 ->
        message = "*❌ Error deleting the case with ID `" +:+ case_id
                  +:+ "`: " +:+ pretty (status_code response) +:+ ", "
                  +:+ text response +:+ "*"
        /\ contains (pretty (status_code response)) message).
Proof.
  intros Hauth request response. subst response request.
  unfold salesforce_tool.delete_case_in_salesforce. unfold bind at 1.
  rewrite Hauth. io_unfold. unfold delete_request.
  destruct (status_code _ =? 204)%Z eqn:Hs; eexists; (split; [reflexivity|]).
  - split; [auto with contains|]. split; [reflexivity|].
    apply Z.eqb_eq in Hs. now intros [].
  - split; [auto with contains|]. split.
    + apply Z.eqb_neq in Hs. now intros ?.
    + intros _. split; [reflexivity|]. auto 10 with contains.
Qed.

Lemma delete_case_outcomes_witness :
  let w := scripted token_ok not_found not_found not_found in
  exists message,
    fst (salesforce_tool.delete_case_in_salesforce w "500Z" [])
      = Return message
    /\ contains "500Z" message /\ contains "404" message.
Proof.
  intros w.
  destruct (delete_case_outcomes w [] [token_request w "secretsecret"]
              (JStr "TOKEN") (JStr "https://acme.example") "500Z" eq_refl)
    as (message & Hrun & Hid & _ & Hfail).
  exists message. split; [now rewrite Hrun|]. split; [exact Hid|].
  apply Hfail. vm_compute. discriminate.
Defined.

(** ** The lifecycle transition, continued *)

(** Listing and then reading one record sends reads only. *)
Lemma list_and_read_only_read (w : World) (tr tr1 tr2 : list Request)
    (fetched : string * gmap Z JSON) (id : JSON) (r : result JSON) :
  opp_salesforce_tools.fetch_opportunities w tr = (Return fetched, tr1) ->
  opp_salesforce_tools.fetch_opportunity_details w id tr1 = (r, tr2) ->
  exists sent, tr2 = tr ++ sent /\ Forall reads sent.
Proof.
  intros Hfetch Hdetails.
  destruct (read_tools_never_write w) as (_ & Hlist & Hrecord & _).
  destruct (Hlist _ _ _ Hfetch) as (s1 & -> & Hs1).
  destruct (Hrecord id _ _ _ Hdetails) as (s2 & -> & Hs2).
  exists (s1 ++ s2). rewrite app_assoc. split; [reflexivity|].
  now apply Forall_app.
Qed.

(** X8. When the chosen record has a [Name] and its stage is not the
    requested one, the transition calls [update_opportunity_stage] on the
    chosen id and returns the composed report, which contains the
    requested stage and, unchanged, whatever text the update returned,
    its failure text included. *)
Theorem transition_applies_update (w : World) (tr tr1 tr2 tr3 : list Request)
    (choice : Z) (new_stage formatted update_message : string)
    (options : gmap Z JSON) (id name : JSON)
    (details : list (string * JSON)) :
  opp_salesforce_tools.fetch_opportunities w tr
    = (Return (formatted, options), tr1) ->
  options !! choice = Some id ->
  opp_salesforce_tools.fetch_opportunity_details w id tr1
    = (Return (JDict details), tr2) ->
  dict_lookup "Name" details = Some name ->
  py_eq_str (default (JStr "Not Available") (dict_lookup "StageName" details))
            new_stage = false ->
  opp_salesforce_tools.update_opportunity_stage w id new_stage tr2
    = (Return update_message, tr3) ->
  let report :=
    opp_salesforce_tools.enhanced_response w choice
      (default (JStr "Not Available") (dict_lookup "Amount" details))
      (default (JStr "Not Available") (dict_lookup "CloseDate" details))
      new_stage
      (opp_salesforce_tools.generate_lifecycle_transition_prompt w name
         (default (JStr "Not Available") (dict_lookup "StageName" details))
         new_stage)
      update_message in
  opp_salesforce_tools.validate_and_update_lifecycle_transition
    w choice new_stage tr
  = (Return report, tr3)
  /\ contains new_stage report
  /\ contains update_message report.
Proof.
  intros Hfetch Hid Hdetails Hname Hstage Hupdate report. split.
  - unfold opp_salesforce_tools.validate_and_update_lifecycle_transition.
    unfold bind at 1. rewrite Hfetch.
    rewrite (nonempty_options _ (key_nonempty _ _ _ Hid)), Hid.
    unfold bind at 1. rewrite Hdetails.
    unfold bind at 1. unfold lift at 1. cbn [py_get]. rewrite Hstage.
    unfold bind at 1. unfold lift at 1. cbn [py_getitem]. rewrite Hname.
    unfold bind at 1. rewrite Hupdate. reflexivity.
  - subst report. unfold opp_salesforce_tools.enhanced_response.
    split; eauto 40 with contains.
Qed.

Lemma transition_applies_update_witness :
  let w := two_deals acme_deal in
  exists report,
    opp_salesforce_tools.validate_and_update_lifecycle_transition
      w 1 "Closed Won" []
    = (Return report,
       list_then_read w "006A"
       ++ [token_request w "secretsecret";
           patch_request w (JStr "TOKEN") (JStr "https://acme.example")
                         "006A" "Closed Won"])
    /\ contains "Closed Won" report
    /\ contains "🎉 Opportunity stage successfully updated to Closed Won!"
                report.
Proof.
  intros w. eexists.
  eapply (transition_applies_update w []
            [token_request w "secretsecret";
             query_request w (JStr "TOKEN") (JStr "https://acme.example")
                           opportunity_soql]
            (list_then_read w "006A") _ 1 "Closed Won" _ _
            (<[2 := JStr "006B"]> (<[1 := JStr "006A"]> ∅))
            (JStr "006A") (JStr "Acme Deal")
            [("Id", JStr "006A"); ("Name", JStr "Acme Deal");
             ("StageName", JStr "Prospecting");
             ("CloseDate", JStr "2024-01-01"); ("Amount", JInt 1000)]);
    vm_compute; reflexivity.
Defined.

(** X9. When the read of the chosen record fails, the transition fails
    with the same exception and has sent reads only: a record that could
    not be read is never written. *)
Theorem failed_read_stops_transition (w : World) (tr tr1 tr2 : list Request)
    (choice : Z) (new_stage formatted : string) (options : gmap Z JSON)
    (id : JSON) (e : Exn) :
  opp_salesforce_tools.fetch_opportunities w tr
    = (Return (formatted, options), tr1) ->
  options !! choice = Some id ->
  opp_salesforce_tools.fetch_opportunity_details w id tr1 = (Raise e, tr2) ->
  opp_salesforce_tools.validate_and_update_lifecycle_transition
    w choice new_stage tr
  = (Raise e, tr2)
  /\ exists sent, tr2 = tr ++ sent /\ Forall reads sent.
Proof.
  intros Hfetch Hid Hdetails. split.
  - unfold opp_salesforce_tools.validate_and_update_lifecycle_transition.
    unfold bind at 1. rewrite Hfetch.
    rewrite (nonempty_options _ (key_nonempty _ _ _ Hid)), Hid.
    unfold bind at 1. now rewrite Hdetails.
  - exact (list_and_read_only_read _ _ _ _ _ _ _ Hfetch Hdetails).
Qed.

Lemma failed_read_stops_transition_witness :
  opp_salesforce_tools.validate_and_update_lifecycle_transition
    deals_unreadable 1 "Closed Won" []
  = (Raise (Exception "Error fetching opportunity details: 404, NOT_FOUND"),
     list_then_read deals_unreadable "006A").
Proof.
  eapply (failed_read_stops_transition deals_unreadable []
            [token_request deals_unreadable "secretsecret";
             query_request deals_unreadable (JStr "TOKEN")
                           (JStr "https://acme.example") opportunity_soql]
            _ 1 "Closed Won" _
            (<[2 := JStr "006B"]> (<[1 := JStr "006A"]> ∅)) (JStr "006A"));
    vm_compute; reflexivity.
Defined.

(** X10. A chosen record without a [Name] makes the transition fail with
    [KeyError] for that key, whatever its stage, before any update is
    attempted: reads only have been sent. *)
Theorem missing_name_stops_transition (w : World) (tr tr1 tr2 : list Request)
    (choice : Z) (new_stage formatted : string) (options : gmap Z JSON)
    (id : JSON) (details : list (string * JSON)) :
  opp_salesforce_tools.fetch_opportunities w tr
    = (Return (formatted, options), tr1) ->
  options !! choice = Some id ->
  opp_salesforce_tools.fetch_opportunity_details w id tr1
    = (Return (JDict details), tr2) ->
  dict_lookup "Name" details = None ->
  opp_salesforce_tools.validate_and_update_lifecycle_transition
    w choice new_stage tr
  = (Raise (KeyError "Name"), tr2)
  /\ exists sent, tr2 = tr ++ sent /\ Forall reads sent.
Proof.
  intros Hfetch Hid Hdetails Hname. split.
  - unfold opp_salesforce_tools.validate_and_update_lifecycle_transition.
    unfold bind at 1. rewrite Hfetch.
    rewrite (nonempty_options _ (key_nonempty _ _ _ Hid)), Hid.
    unfold bind at 1. rewrite Hdetails.
    unfold bind at 1. unfold lift at 1. cbn [py_get].
    destruct (py_eq_str _ new_stage);
      unfold bind at 1; unfold lift at 1; cbn [py_getitem];
      now rewrite Hname.
  - exact (list_and_read_only_read _ _ _ _ _ _ _ Hfetch Hdetails).
Qed.

Lemma missing_name_stops_transition_witness :
  let w := two_deals (JDict [("StageName", JStr "Prospecting")]) in
  opp_salesforce_tools.validate_and_update_lifecycle_transition
    w 1 "Closed Won" []
  = (Raise (KeyError "Name"), list_then_read w "006A").
Proof.
  intros w.
  eapply (missing_name_stops_transition w []
            [token_request w "secretsecret";
             query_request w (JStr "TOKEN") (JStr "https://acme.example")
                           opportunity_soql]
            _ 1 "Closed Won" _
            (<[2 := JStr "006B"]> (<[1 := JStr "006A"]> ∅)) (JStr "006A")
            [("StageName", JStr "Prospecting")]);
    vm_compute; reflexivity.
Defined.

(** X11. [Not Available] stands for the stage of a record that holds no
    [StageName]: asked to move such a record to the stage
    [Not Available], the transition sends no update.  It answers that
    the opportunity is already set to that stage when the record holds a
    [Name], and fails with [KeyError] for that key when it does not. *)
Theorem missing_stage_reads_as_not_available (w : World)
    (tr tr1 tr2 : list Request) (choice : Z) (formatted : string)
    (options : gmap Z JSON) (id : JSON) (details : list (string * JSON)) :
  opp_salesforce_tools.fetch_opportunities w tr
    = (Return (formatted, options), tr1) ->
  options !! choice = Some id ->
  opp_salesforce_tools.fetch_opportunity_details w id tr1
    = (Return (JDict details), tr2) ->
  dict_lookup "StageName" details = None ->
  opp_salesforce_tools.validate_and_update_lifecycle_transition
    w choice "Not Available" tr
  = (match dict_lookup "Name" details with
     | Some name =>
         Return ("⚠️ The stage of the opportunity "
                 +:+ String "034"%char ""
                 +:+ py_str (repr_str w) name
                 +:+ String "034"%char ""
                 +:+ " is already set to *Not Available*. There's no need to update!")
     | None => Raise (KeyError "Name")
     end, tr2)
  /\ exists sent, tr2 = tr ++ sent /\ Forall reads sent.
Proof.
  intros Hfetch Hid Hdetails Hstage. split.
  - unfold opp_salesforce_tools.validate_and_update_lifecycle_transition.
    unfold bind at 1. rewrite Hfetch.
    rewrite (nonempty_options _ (key_nonempty _ _ _ Hid)), Hid.
    unfold bind at 1. rewrite Hdetails.
    io_unfold. cbn [py_get py_getitem]. rewrite Hstage.
    cbn [default from_option py_eq_str Datatypes.id String.eqb].
    now destruct (dict_lookup "Name" details).
  - exact (list_and_read_only_read _ _ _ _ _ _ _ Hfetch Hdetails).
Qed.

Lemma missing_stage_reads_as_not_available_witness :
  let w := two_deals (JDict [("Name", JStr "Acme Deal")]) in
  opp_salesforce_tools.validate_and_update_lifecycle_transition
    w 1 "Not Available" []
  = (Return ("⚠️ The stage of the opportunity " +:+ String "034"%char ""
             +:+ "Acme Deal" +:+ String "034"%char ""
             +:+ " is already set to *Not Available*. There's no need to update!"),
     list_then_read w "006A").
Proof.
  intros w.
  refine (proj1 (missing_stage_reads_as_not_available w []
                   [token_request w "secretsecret";
                    query_request w (JStr "TOKEN")
                                  (JStr "https://acme.example")
                                  opportunity_soql]
                   (list_then_read w "006A") 1 _
                   (<[2 := JStr "006B"]> (<[1 := JStr "006A"]> ∅))
                   (JStr "006A") [("Name", JStr "Acme Deal")] _ _ _ _));
    vm_compute; reflexivity.
Defined.

(** ** Incomplete opportunity records *)

Lemma opportunity_step_outcome (w : World) (index : Z)
    (d : list (string * JSON)) (t : string) (o : gmap Z JSON) :
  match first_missing_key opportunity_keys d with
  | Some k =>
      opp_salesforce_tools.opportunity_step w index (JDict d) (t, o)
      = Raise (KeyError k)
  | None =>
      exists st,
        opp_salesforce_tools.opportunity_step w index (JDict d) (t, o)
        = Return st
  end.
Proof.
  unfold opp_salesforce_tools.opportunity_step,
    opp_salesforce_tools.opportunity_text.
  cbn [first_missing_key opportunity_keys py_getitem].
  destruct (dict_lookup "Name" d); [|reflexivity].
  destruct (dict_lookup "CloseDate" d); [|reflexivity].
  destruct (dict_lookup "Amount" d); [|reflexivity].
  destruct (dict_lookup "StageName" d); [|reflexivity].
  destruct (dict_lookup "Id" d); [|reflexivity].
  eexists. reflexivity.
Qed.

Lemma opportunity_loop_raises (w : World) (ds : list (list (string * JSON)))
    (k : string) :
  forall (index : Z) (st : string * gmap Z JSON),
    first_failure ds = Some k ->
    for_enumerate index (map JDict ds)
                  (opp_salesforce_tools.opportunity_step w) st
    = Raise (KeyError k).
Proof.
  induction ds as [|d ds IH]; intros index [t o] Hk; [discriminate|].
  cbn [map for_enumerate first_failure] in *.
  pose proof (opportunity_step_outcome w index d t o) as Hstep.
  destruct (first_missing_key opportunity_keys d) as [k'|].
  - inversion Hk; subst k'. now rewrite Hstep.
  - destruct Hstep as [st' ->]. cbn [rbind]. now apply IH.
Qed.

(** X12. When the listed records are dicts and one of them lacks a key
    the display needs, [fetch_opportunities] returns nothing for the
    complete records before it: it fails with [KeyError] naming the first
    key that the first incomplete record lacks, in the order Name,
    CloseDate, Amount, StageName, Id. *)
Theorem incomplete_opportunity_fails (w : World) (tr tr1 : list Request)
    (tok url : JSON) (ds : list (list (string * JSON))) (k : string) :
  opp_salesforce_tools.get_access_token w tr = (Return (tok, url), tr1) ->
  lists_records (send w tr1 (query_request w tok url opportunity_soql))
                (map JDict ds) ->
  first_failure ds = Some k ->
  opp_salesforce_tools.fetch_opportunities w tr
  = (Raise (KeyError k), tr1 ++ [query_request w tok url opportunity_soql]).
Proof.
  intros Hauth (Hs & body & Hbody & Hrecords) Hk.
  unfold opp_salesforce_tools.fetch_opportunities. unfold bind at 1.
  rewrite Hauth. io_unfold.
  unfold query_request, salesforce_tool.query_url, opportunity_soql in *.
  unfold opp_salesforce_tools.query_url, response_json.
  rewrite Hs, Hbody. cbn [Z.eqb Pos.eqb py_get]. rewrite Hrecords.
  cbn [default from_option Datatypes.id].
  rewrite truthy_list by (destruct ds; discriminate).
  cbn [negb py_iter].
  now rewrite (opportunity_loop_raises w ds k 1 _ Hk).
Qed.

Lemma incomplete_opportunity_fails_witness :
  opp_salesforce_tools.fetch_opportunities deals_incomplete []
  = (Raise (KeyError "CloseDate"),
     [token_request deals_incomplete "secretsecret"]
     ++ [query_request deals_incomplete (JStr "TOKEN")
                       (JStr "https://acme.example") opportunity_soql]).
Proof.
  apply (incomplete_opportunity_fails deals_incomplete []
           [token_request deals_incomplete "secretsecret"]
           (JStr "TOKEN") (JStr "https://acme.example")
           [[("Id", JStr "006A"); ("Name", JStr "Acme Deal");
             ("StageName", JStr "Prospecting");
             ("CloseDate", JStr "2024-01-01"); ("Amount", JInt 1000)];
            [("Id", JStr "006B"); ("Name", JStr "Beta Deal");
             ("StageName", JStr "Closed Won")]]
           "CloseDate" eq_refl).
  - split; [reflexivity|]. eexists. split; reflexivity.
  - reflexivity.
Defined.

(** ** Case comments *)

Lemma comment_loop_returns (w : World) (ds : list (list (string * JSON))) :
  forall t : string,
    Forall (fun d => is_Some (dict_lookup "CommentBody" d)
                     /\ is_Some (dict_lookup "CreatedDate" d)) ds ->
    for_each (map JDict ds) (salesforce_tool.comment_lines w) t
    = Return (t +:+ concat_strings (map (comment_block w) ds)).
Proof.
  induction ds as [|d ds IH]; intros t Hds.
  - cbn. now rewrite string_app_nil_r.
  - apply Forall_cons in Hds as [[[body Hbody] [created Hcreated]] Hds].
    cbn [map for_each]. unfold salesforce_tool.comment_lines at 1.
    cbn [py_getitem]. rewrite Hbody, Hcreated. cbn [rbind].
    rewrite (IH _ Hds). cbn [concat_strings foldr].
    unfold comment_block at 2, shown_or_empty. rewrite Hbody, Hcreated.
    now rewrite !string_app_assoc.
Qed.

(** X13. For a 200 answer listing N >= 1 comments, each with a
    [CommentBody] and a [CreatedDate], [fetch_case_comments] returns the
    heading, the case number as given and then one block per comment, in
    the order the comments were returned. *)
Theorem comments_listed_in_order (w : World) (tr tr1 : list Request)
    (tok url : JSON) (case_number : string)
    (ds : list (list (string * JSON))) :
  salesforce_tool.get_access_token w tr = (Return (tok, url), tr1) ->
  lists_records
    (send w tr1 (query_request w tok url (comment_soql case_number)))
    (map JDict ds) ->
  ds <> [] ->
  Forall (fun d => is_Some (dict_lookup "CommentBody" d)
                   /\ is_Some (dict_lookup "CreatedDate" d)) ds ->
  salesforce_tool.fetch_case_comments w case_number tr
  = (Return ("*✅ Case Comments Retrieved Successfully!*" +:+ nl +:+ nl
             +:+ "*🎫 Case Number:* `" +:+ case_number +:+ "`" +:+ nl +:+ nl
             +:+ "*🔎 Full Comments:* " +:+ nl
             +:+ concat_strings (map (comment_block w) ds)),
     tr1 ++ [query_request w tok url (comment_soql case_number)]).
Proof.
  intros Hauth (Hs & body & Hbody & Hrecords) Hne Hds.
  unfold salesforce_tool.fetch_case_comments. unfold bind at 1.
  rewrite Hauth. io_unfold.
  unfold query_request, comment_soql in *. unfold response_json.
  rewrite Hs, Hbody. cbn [Z.eqb Pos.eqb py_get]. rewrite Hrecords.
  cbn [default from_option Datatypes.id].
  rewrite truthy_list by (destruct ds; [contradiction|discriminate]).
  cbn [negb py_iter]. rewrite (comment_loop_returns w ds "" Hds).
  reflexivity.
Qed.

Lemma comments_listed_in_order_witness :
  fst (salesforce_tool.fetch_case_comments case_with_comments "00001001" [])
  = Return ("*✅ Case Comments Retrieved Successfully!*" +:+ nl +:+ nl
            +:+ "*🎫 Case Number:* `00001001`" +:+ nl +:+ nl
            +:+ "*🔎 Full Comments:* " +:+ nl
            +:+ "*📝 Comment:* Router restarted" +:+ nl
            +:+ "*📅 Created On:* 2024-03-01" +:+ nl +:+ nl
            +:+ "*📝 Comment:* Customer confirmed" +:+ nl
            +:+ "*📅 Created On:* 2024-03-02" +:+ nl +:+ nl).
Proof.
  rewrite (comments_listed_in_order case_with_comments []
             [token_request case_with_comments "secretsecret"]
             (JStr "TOKEN") (JStr "https://acme.example") "00001001"
             two_comments eq_refl).
  - reflexivity.
  - split; [reflexivity|]. eexists. split; reflexivity.
  - discriminate.
  - repeat constructor; eexists; reflexivity.
Defined.

(** X14. A query answered with a status other than 200 is reported in
    the returned text, with the status code and the body, and raises
    nothing: [fetch_leads] returns that text with an empty option
    mapping, [fetch_case_comments] returns it alone. *)
Theorem query_failures_are_returned (w : World) (tr tr1 : list Request)
    (tok url : JSON) :
  salesforce_tool.get_access_token w tr = (Return (tok, url), tr1) ->
  (status_code (send w tr1 (query_request w tok url lead_soql)) <> 200 ->
   opp_salesforce_tools.fetch_leads w tr
   = (Return ("*❌ Error fetching leads: "
              +:+ pretty (status_code
                            (send w tr1 (query_request w tok url lead_soql)))
              +:+ ", "
              +:+ text (send w tr1 (query_request w tok url lead_soql))
              +:+ "*", ∅),
      tr1 ++ [query_request w tok url lead_soql]))
  /\ (forall case_number : string,
        let q := query_request w tok url (comment_soql case_number) in
        status_code (send w tr1 q) <> 200 ->
        salesforce_tool.fetch_case_comments w case_number tr
        = (Return ("*❌ Error fetching case comments: "
                   +:+ pretty (status_code (send w tr1 q)) +:+ ", "
                   +:+ text (send w tr1 q) +:+ "*"),
           tr1 ++ [q])).
Proof.
  intros Hauth. split.
  - intros Hs. apply Z.eqb_neq in Hs.
    unfold opp_salesforce_tools.fetch_leads. unfold bind at 1.
    rewrite same_get_access_token, Hauth. io_unfold.
    unfold query_request, salesforce_tool.query_url, lead_soql in *.
    unfold opp_salesforce_tools.query_url. now rewrite Hs.
  - intros case_number q Hs. apply Z.eqb_neq in Hs. subst q.
    unfold salesforce_tool.fetch_case_comments. unfold bind at 1.
    rewrite Hauth. io_unfold. unfold query_request, comment_soql in *.
    now rewrite Hs.
Qed.

Lemma query_failures_are_returned_witness :
  opp_salesforce_tools.fetch_leads queries_fail []
  = (Return ("*❌ Error fetching leads: 500, SERVER_ERROR*", ∅),
     [token_request queries_fail "secretsecret";
      query_request queries_fail (JStr "TOKEN")
                    (JStr "https://acme.example") lead_soql]).
Proof.
  apply (query_failures_are_returned queries_fail []
           [token_request queries_fail "secretsecret"]
           (JStr "TOKEN") (JStr "https://acme.example") eq_refl).
  vm_compute. discriminate.
Defined.

(** ** Answers of an unexpected shape *)

Lemma code_points_nonempty (c : ascii) (s : string) :
  exists p ps, code_points (String c s) = p :: ps.
Proof.
  cbn [code_points]. destruct (code_points s) as [|p ps]; [now eexists _, _|].
  destruct s as [|c' s']; [now eexists _, _|].
  destruct (is_continuation c'); now eexists _, _.
Qed.

(** X15. When a 200 answer holds under [records] something that is not a
    list, [fetch_opportunities] treats a falsy value (null, false, 0, an
    empty text or object) as no records, and fails with [TypeError] on
    any other: a number cannot be iterated, and the characters of a text
    or the keys of an object cannot be subscripted by [Name]. *)
Theorem records_not_a_list (w : World) (tr tr1 : list Request)
    (tok url v : JSON) (body : list (string * JSON)) :
  opp_salesforce_tools.get_access_token w tr = (Return (tok, url), tr1) ->
  status_code (send w tr1 (query_request w tok url opportunity_soql)) = 200 ->
  body_json (send w tr1 (query_request w tok url opportunity_soql))
    = Some (JDict body) ->
  dict_lookup "records" body = Some v ->
  (forall items, v <> JList items) ->
  opp_salesforce_tools.fetch_opportunities w tr
  = (if py_truthy v then Raise TypeError
     else Return ("*❌ No opportunities found.*", ∅),
     tr1 ++ [query_request w tok url opportunity_soql]).
Proof.
  intros Hauth Hs Hbody Hrecords Hshape.
  unfold opp_salesforce_tools.fetch_opportunities. unfold bind at 1.
  rewrite Hauth. io_unfold.
  unfold query_request, salesforce_tool.query_url, opportunity_soql in *.
  unfold opp_salesforce_tools.query_url, response_json.
  rewrite Hs, Hbody. cbn [Z.eqb Pos.eqb py_get]. rewrite Hrecords.
  cbn [default from_option Datatypes.id].
  destruct v as [|b|n|r|s|items|d].
  - reflexivity.
  - now destruct b.
  - cbn [py_truthy]. now destruct (n =? 0)%Z.
  - cbn [py_truthy]. now destruct (_ || _)%bool.
  - destruct s as [|c s]; [reflexivity|].
    destruct (code_points_nonempty c s) as (p & ps & Hp).
    cbn [py_truthy String.eqb negb py_iter]. now rewrite Hp.
  - now destruct (Hshape items).
  - destruct d as [|[k x] d]; reflexivity.
Qed.

Lemma records_not_a_list_witness :
  opp_salesforce_tools.fetch_opportunities records_are_text []
  = (Raise TypeError,
     [token_request records_are_text "secretsecret"]
     ++ [query_request records_are_text (JStr "TOKEN")
                       (JStr "https://acme.example") opportunity_soql]).
Proof.
  apply (records_not_a_list records_are_text []
           [token_request records_are_text "secretsecret"]
           (JStr "TOKEN") (JStr "https://acme.example") (JStr "oops")
           [("records", JStr "oops")] eq_refl eq_refl eq_refl eq_refl).
  discriminate.
Defined.

(** X16. A 201 answer is not enough for [create_case_in_salesforce] to
    report the case it has just created.  If the body is a JSON object
    without an [id], the text shows the case id as [None]; if the body
    is not JSON, the call raises the decoding error although the POST
    has been sent and accepted. *)
Theorem created_case_without_id (w : World) (tr tr1 : list Request)
    (tok url : JSON) (subject description priority : string) :
  salesforce_tool.get_access_token w tr = (Return (tok, url), tr1) ->
  status_code
    (send w tr1 (case_request w tok url subject description priority))
    = 201 ->
  let request := case_request w tok url subject description priority in
  let outcome :=
    salesforce_tool.create_case_in_salesforce w subject description priority
                                              tr in
  (forall d : list (string * JSON),
      body_json (send w tr1 request) = Some (JDict d) ->
      dict_lookup "id" d = None ->
      exists message,
        outcome = (Return message, tr1 ++ [request])
        /\ contains "*🎫 Case ID:* `None`" message)
  /\ (body_json (send w tr1 request) = None ->
      outcome = (Raise JSONDecodeError, tr1 ++ [request])).
Proof.
  intros Hauth Hs request outcome. subst outcome request.
  unfold case_request in *. split.
  - intros d Hbody Hid. eexists. split.
    + unfold salesforce_tool.create_case_in_salesforce. unfold bind at 1.
      rewrite Hauth. io_unfold. unfold response_json.
      rewrite Hs, Hbody. cbn [Z.eqb Pos.eqb py_get]. rewrite Hid.
      cbn [default from_option Datatypes.id py_str py_repr]. reflexivity.
    + exists ("*✅ Case Created Successfully!*" +:+ nl +:+ nl).
      eexists. reflexivity.
  - intros Hbody.
    unfold salesforce_tool.create_case_in_salesforce. unfold bind at 1.
    rewrite Hauth. io_unfold. unfold response_json.
    now rewrite Hs, Hbody.
Qed.

Lemma created_case_without_id_witness :
  salesforce_tool.create_case_in_salesforce (case_created None) "X" "Y"
    "High" []
  = (Raise JSONDecodeError,
     [token_request (case_created None) "secretsecret"]
     ++ [case_request (case_created None) (JStr "TOKEN")
                      (JStr "https://acme.example") "X" "Y" "High"]).
Proof.
  apply (created_case_without_id (case_created None) []
           [token_request (case_created None) "secretsecret"]
           (JStr "TOKEN") (JStr "https://acme.example") "X" "Y" "High"
           eq_refl eq_refl).
  reflexivity.
Defined.

(** ** Reading one lead *)



(** ** Choices and the listing *)

Lemma fetch_opportunities_numbered (w : World) (tr tr1 : list Request)
    (tok url : JSON) (items : list JSON) :
  opp_salesforce_tools.get_access_token w tr = (Return (tok, url), tr1) ->
  lists_records (send w tr1 (query_request w tok url opportunity_soql))
                items ->
  items <> [] ->
  Forall opportunity_record items ->
  exists text options,
    opp_salesforce_tools.fetch_opportunities w tr
    = (Return (text, options),
       tr1 ++ [query_request w tok url opportunity_soql])
    /\ numbered (opp_salesforce_tools.opportunity_text w)
                opportunities_header items text options.
Proof.
  intros Hauth (Hs & d & Hbody & Hrecords) Hne Hwf.
  destruct (for_enumerate_numbered
              (opp_salesforce_tools.opportunity_text w)
              (opp_salesforce_tools.opportunity_step w)
              opportunity_record
              (fun i r t o => eq_refl)
              (opportunity_text_formats w)
              (record_identified
                 ["Id"; "Name"; "StageName"; "CloseDate"; "Amount"]
                 ltac:(cbn; tauto))
              items opportunities_header Hwf)
    as (text & options & Hloop & Hnumbered).
  exists text, options. split; [|exact Hnumbered].
  unfold opp_salesforce_tools.fetch_opportunities. unfold bind at 1.
  rewrite Hauth. io_unfold.
  unfold query_request, salesforce_tool.query_url, opportunity_soql in *.
  unfold opp_salesforce_tools.query_url, response_json.
  rewrite Hs, Hbody. cbn [Z.eqb Pos.eqb py_get]. rewrite Hrecords.
  cbn [default from_option Datatypes.id]. rewrite (truthy_list _ Hne).
  cbn [negb py_iter]. unfold opportunities_header in Hloop.
  now rewrite Hloop.
Qed.

(** X18. With N >= 1 complete opportunities listed, a choice below 1 or
    above N is answered by the fixed invalid-option text, the token
    request and the list query being all that was sent: zero and
    negative numbers are no options, and neither is N + 1. *)
Theorem choice_out_of_range_is_invalid (w : World) (tr tr1 : list Request)
    (tok url : JSON) (items : list JSON) (choice : Z) (new_stage : string) :
  opp_salesforce_tools.get_access_token w tr = (Return (tok, url), tr1) ->
  lists_records (send w tr1 (query_request w tok url opportunity_soql))
                items ->
  items <> [] ->
  Forall opportunity_record items ->
  choice < 1 \/ Z.of_nat (length items) < choice ->
  opp_salesforce_tools.validate_and_update_lifecycle_transition
    w choice new_stage tr
  = (Return opp_salesforce_tools.invalid_option_message,
     tr1 ++ [query_request w tok url opportunity_soql]).
Proof.
  intros Hauth Hlist Hne Hwf Hrange.
  destruct (fetch_opportunities_numbered _ _ _ _ _ _ Hauth Hlist Hne Hwf)
    as (text & options & Hfetch & blocks & _ & _ & _ & Hdom).
  assert (options !! choice = None) as Hnone.
  { apply not_elem_of_dom. rewrite Hdom. lia. }
  assert (options <> ∅) as Hfull.
  { intros ->. destruct items as [|r items]; [contradiction|].
    assert (1 ∈ dom (∅ : gmap Z JSON)) as Hone
      by (apply Hdom; cbn [length]; lia).
    rewrite dom_empty in Hone. now apply not_elem_of_empty in Hone. }
  unfold opp_salesforce_tools.validate_and_update_lifecycle_transition.
  unfold bind at 1. rewrite Hfetch.
  now rewrite (nonempty_options _ Hfull), Hnone.
Qed.

Lemma choice_out_of_range_is_invalid_witness :
  let w := two_deals acme_deal in
  opp_salesforce_tools.validate_and_update_lifecycle_transition
    w 0 "Closed Won" []
  = (Return "*❌ Invalid option selected. Please choose a valid option.*",
     [token_request w "secretsecret"]
     ++ [query_request w (JStr "TOKEN") (JStr "https://acme.example")
                       opportunity_soql]).
Proof.
  intros w.
  apply (choice_out_of_range_is_invalid w []
           [token_request w "secretsecret"]
           (JStr "TOKEN") (JStr "https://acme.example")
           [acme_deal; beta_deal] 0 "Closed Won" eq_refl).
  - split; [reflexivity|]. eexists. split; reflexivity.
  - discriminate.
  - repeat constructor; eexists; (split; [reflexivity|]);
      repeat constructor; vm_compute; eauto.
  - left. lia.
Defined.
